(** * bank.py: extraction, normalisation, classification and aggregation

    A shallow embedding of the data pipeline of [bank.py]: the row
    extraction loop, [clean_amount], the date handling and sort, the totals,
    the monthly [groupby] and [categorize].  Chart rendering, widgets and the
    Excel export are not modelled: they take no part in the data, but
    pandas and matplotlib can raise in them (the bar chart of an empty
    monthly table, the pie chart of a negative category total), so the
    model describes the data the script computes, each piece as it stands
    when the script reaches its line, and not whether the script runs to
    its end.

    Modelling conventions.
    - A Python [str] is a [string]; its characters are the code points below
      256.
    - A Python [float] is modelled by the exact decimal number it denotes
      (type [pyfloat]: a rational, an infinity or nan).  The rounding of
      [float()] and of additions to binary64, and the overflow of a large
      literal to an infinity, are not part of the model.  No theorem below
      relies on a law of exact addition that machine addition lacks
      (associativity, independence of the order of the summands): sums are
      only named, or evaluated on amounts that binary64 holds exactly.
    - A raised exception is the [Raise] branch of [result].
    - [pd.to_datetime] is a parameter of the pipeline; the pandas operations
      on the frame ([sort_values], [sum], [groupby], [strftime]) follow their
      documented defaults. *)

From Stdlib Require Import String Ascii List Bool Arith NArith ZArith Lia.
From Stdlib Require Import QArith Qcanon DecimalString.
From Stdlib Require Import Permutation Sorted.
From Stdlib Require DecimalZ.
Import ListNotations.

Close Scope Qc_scope.
Close Scope Q_scope.
Local Open Scope string_scope.
Local Open Scope list_scope.

(** ** Exceptions *)

Inductive exn : Type :=
| ValueError.

Inductive result (A : Type) : Type :=
| Ok (a : A)
| Raise (e : exn).

Arguments Ok {A} a.
Arguments Raise {A} e.

Definition bind {A B : Type} (r : result A) (k : A -> result B) : result B :=
  match r with
  | Ok a => k a
  | Raise e => Raise e
  end.

Notation "x <- c ;; k" := (bind c (fun x => k))
  (at level 61, c at next level, right associativity).

(** [Series.apply f]: the first exception raised aborts the whole call. *)
Fixpoint mapM {A B : Type} (f : A -> result B) (l : list A) : result (list B) :=
  match l with
  | [] => Ok []
  | a :: l' => b <- f a ;; bs <- mapM f l' ;; Ok (b :: bs)
  end.

(** ** Python strings *)

Module PyStr.

Definition code (c : ascii) : N := N_of_ascii c.

Definition in_range (lo hi : N) (c : ascii) : bool :=
  ((lo <=? code c) && (code c <=? hi))%N.

(** [str.isspace] on one character: TAB..CR, FS..US, space, NEL, NBSP. *)
Definition isspace (c : ascii) : bool :=
  in_range 9 13 c || in_range 28 32 c
  || (code c =? 133)%N || (code c =? 160)%N.

Definition isdigit (c : ascii) : bool := in_range 48 57 c.

Fixpoint rev_onto (s acc : string) : string :=
  match s with
  | EmptyString => acc
  | String c s' => rev_onto s' (String c acc)
  end.

Definition rev (s : string) : string := rev_onto s EmptyString.

Fixpoint lstrip_by (ws : ascii -> bool) (s : string) : string :=
  match s with
  | EmptyString => EmptyString
  | String c s' => if ws c then lstrip_by ws s' else s
  end.

Definition rstrip_by (ws : ascii -> bool) (s : string) : string :=
  rev (lstrip_by ws (rev s)).

Definition strip_by (ws : ascii -> bool) (s : string) : string :=
  rstrip_by ws (lstrip_by ws s).

(** [s.strip()] *)
Definition strip (s : string) : string := strip_by isspace s.

(** [s.replace(old, new)] for a one-character [old]. *)
Fixpoint replace (old : ascii) (new : string) (s : string) : string :=
  match s with
  | EmptyString => EmptyString
  | String c s' =>
      if Ascii.eqb c old then new ++ replace old new s'
      else String c (replace old new s')
  end.

(** [s.startswith(p)] and [s.endswith(p)] *)
Definition startswith (p s : string) : bool := String.prefix p s.
Definition endswith (p s : string) : bool := String.prefix (rev p) (rev s).

(** [s[1:-1]] *)
Definition slice_1_m1 (s : string) : string :=
  substring 1 (String.length s - 2) s.

(** [str.lower] on one character: A..Z and the Latin-1 capitals. *)
Definition lower_char (c : ascii) : ascii :=
  if in_range 65 90 c || (in_range 192 222 c && negb (code c =? 215)%N)
  then ascii_of_N (code c + 32)
  else c.

Fixpoint lower (s : string) : string :=
  match s with
  | EmptyString => EmptyString
  | String c s' => String (lower_char c) (lower s')
  end.

(** [needle in hay] *)
Fixpoint contains (needle hay : string) : bool :=
  String.prefix needle hay ||
  match hay with
  | EmptyString => false
  | String _ hay' => contains needle hay'
  end.

End PyStr.

(** ** Python values *)

(** The values a table cell can hold ([pdfplumber] yields [str] or [None])
    together with the other scalars whose [str()] is modelled. *)
Inductive pyobj : Type :=
| PyNone
| PyBool (b : bool)
| PyInt (z : Z)
| PyStr (s : string).

(** [str(x)] *)
Definition str (x : pyobj) : string :=
  match x with
  | PyNone => "None"
  | PyBool true => "True"
  | PyBool false => "False"
  | PyInt z => NilZero.string_of_int (Z.to_int z)
  | PyStr s => s
  end.

(** ** Python floats *)

Inductive pyfloat : Type :=
| Fin (q : Qc)
| Inf (neg : bool)
| NaN.

(** The float denoted by a decimal literal, e.g. [dec 1234.5]. *)
Definition dec (q : Q) : pyfloat := Fin (Q2Qc q).

Definition fneg (x : pyfloat) : pyfloat :=
  match x with
  | Fin q => Fin (- q)%Qc
  | Inf s => Inf (negb s)
  | NaN => NaN
  end.

(** [x + y], without the rounding of the result to binary64. *)
Definition fadd (x y : pyfloat) : pyfloat :=
  match x, y with
  | NaN, _ | _, NaN => NaN
  | Fin a, Fin b => Fin (a + b)%Qc
  | Fin _, Inf s | Inf s, Fin _ => Inf s
  | Inf s, Inf t => if Bool.eqb s t then Inf s else NaN
  end.

Definition fsub (x y : pyfloat) : pyfloat := fadd x (fneg y).

(** [x <= y] on floats; every comparison with nan is false. *)
Definition fle (x y : pyfloat) : bool :=
  match x, y with
  | NaN, _ | _, NaN => false
  | Inf true, _ => true
  | _, Inf false => true
  | Inf false, _ => false
  | _, Inf true => false
  | Fin a, Fin b => match (a ?= b)%Qc with Gt => false | _ => true end
  end.

Definition isnan (x : pyfloat) : bool :=
  match x with NaN => true | _ => false end.

(** ** The [float()] constructor on strings *)

Module PyFloat.
Import PyStr.

(** Whitespace removed by [float()] around the number: the C-locale
    spaces, and NEL and NBSP, which are turned into spaces first. *)
Definition isspace_c (c : ascii) : bool :=
  in_range 9 13 c || (code c =? 32)%N
  || (code c =? 133)%N || (code c =? 160)%N.

(** [Py_TOLOWER]: ASCII only. *)
Definition tolower (c : ascii) : ascii :=
  if in_range 65 90 c then ascii_of_N (code c + 32) else c.

Definition is_underscore (c : ascii) : bool := Ascii.eqb c "_".

(** The loop that validates and drops digit-group underscores: an
    underscore is allowed only between two digits. *)
Fixpoint underscores_loop (prev : ascii) (s : string) : option string :=
  match s with
  | EmptyString => if is_underscore prev then None else Some EmptyString
  | String c s' =>
      if Ascii.eqb c zero then None
      else if is_underscore c then
        if isdigit prev then underscores_loop c s' else None
      else if is_underscore prev && negb (isdigit c) then None
      else option_map (String c) (underscores_loop c s')
  end.

Definition without_underscores (s : string) : option string :=
  if contains "_" s then underscores_loop zero s else Some s.

Definition take_sign (s : string) : bool * string :=
  match s with
  | String "-" s' => (true, s')
  | String "+" s' => (false, s')
  | _ => (false, s)
  end.

Fixpoint span_digits (s : string) : string * string :=
  match s with
  | EmptyString => (EmptyString, EmptyString)
  | String c s' =>
      if isdigit c then
        let (d, r) := span_digits s' in (String c d, r)
      else (EmptyString, s)
  end.

Fixpoint digits_value (acc : N) (s : string) : N :=
  match s with
  | EmptyString => acc
  | String c s' => digits_value (10 * acc + (code c - 48)) s'
  end.

Definition pow10 (e : Z) : Q :=
  match e with
  | Zneg p => (1 # (10 ^ p))%Q
  | _ => inject_Z (10 ^ e)
  end.

(** [(-1)^neg * m * 10^e], the number the literal denotes: neither rounded
    to binary64 nor turned into an infinity when it is too large. *)
Definition decimal (neg : bool) (m : N) (e : Z) : pyfloat :=
  let q := (inject_Z (Z.of_N m) * pow10 e)%Q in
  Fin (Q2Qc (if neg then (- q)%Q else q)).

(** The exponent part: consumed only when it has at least one digit. *)
Definition take_exponent (s : string) : Z * string :=
  match s with
  | String c s' =>
      if Ascii.eqb (tolower c) "e" then
        let (eneg, s1) := take_sign s' in
        let (ds, s2) := span_digits s1 in
        match ds with
        | EmptyString => (0%Z, s)
        | _ =>
            let n := Z.of_N (digits_value 0 ds) in
            ((if eneg then - n else n)%Z, s2)
        end
      else (0%Z, s)
  | EmptyString => (0%Z, s)
  end.

(** [case_insensitive_match]: the rest of [s] after the lower-case
    pattern [t], if [s] starts with it up to ASCII case. *)
Fixpoint case_insensitive_match (s t : string) : option string :=
  match t with
  | EmptyString => Some s
  | String ct t' =>
      match s with
      | String cs s' =>
          if Ascii.eqb (tolower cs) ct then case_insensitive_match s' t'
          else None
      | EmptyString => None
      end
  end.

(** [_Py_parse_inf_or_nan]: the value and the unconsumed rest. *)
Definition parse_inf_or_nan (s : string) : option (pyfloat * string) :=
  let (neg, s1) := take_sign s in
  match case_insensitive_match s1 "inf" with
  | Some s2 =>
      match case_insensitive_match s2 "inity" with
      | Some s3 => Some (Inf neg, s3)
      | None => Some (Inf neg, s2)
      end
  | None =>
      match case_insensitive_match s1 "nan" with
      | Some s2 => Some (NaN, s2)
      | None => None
      end
  end.

(** The decimal number parser: the value and the unconsumed rest, or
    [None] when the text has no digit. *)
Definition strtod (s : string) : option (pyfloat * string) :=
  let (neg, s1) := take_sign s in
  let (ip, s2) := span_digits s1 in
  let (fp, s3) :=
    match s2 with
    | String "." s' => span_digits s'
    | _ => (EmptyString, s2)
    end in
  match (ip ++ fp)%string with
  | EmptyString => None
  | ds =>
      let (ex, s4) := take_exponent s3 in
      Some (decimal neg (digits_value 0 ds)
              (ex - Z.of_nat (String.length fp)), s4)
  end.

Definition string_to_double (s : string) : option (pyfloat * string) :=
  match strtod s with
  | Some r => Some r
  | None => parse_inf_or_nan s
  end.

(** [float(s)] for a string [s] *)
Definition float (s : string) : result pyfloat :=
  match without_underscores s with
  | None => Raise ValueError
  | Some t =>
      match strip_by isspace_c t with
      | EmptyString => Raise ValueError
      | u =>
          match string_to_double u with
          | Some (v, EmptyString) => Ok v
          | _ => Raise ValueError
          end
      end
  end.

End PyFloat.

(** ** [clean_amount] *)

Definition clean_amount (x : pyobj) : result pyfloat :=
  let x := PyStr.strip (PyStr.replace "," "" (str x)) in
  if PyStr.startswith "(" x && PyStr.endswith ")" x then
    v <- PyFloat.float (PyStr.slice_1_m1 x) ;; Ok (fneg v)
  else if negb (x =? "") && negb (x =? "None") then PyFloat.float x
  else Ok (dec 0).

(** ** [categorize] *)

Definition categorize (desc : pyobj) : string :=
  let d := PyStr.lower (str desc) in
  if PyStr.contains "loan" d then "Loan"
  else if PyStr.contains "salary" d then "Salary"
  else if PyStr.contains "neft" d then "NEFT"
  else if PyStr.contains "upi" d then "UPI"
  else if PyStr.contains "transfer" d || PyStr.contains "tfr" d then "Transfer"
  else "Others".

(** ** PDF extraction *)

(** One table row as [pdfplumber] returns it: a list of cells. *)
Definition RawRow : Type := list pyobj.

(** [page.extract_table()]: [None] or a list of rows. *)
Definition Page : Type := option (list RawRow).

(** The dict appended to [rows]. *)
Record RowDict : Type := mkRowDict {
  raw_Date : pyobj;
  raw_Particulars : pyobj;
  raw_Withdrawals : pyobj;
  raw_Deposits : pyobj;
  raw_Balance : pyobj
}.

(** [row[i]] for [i] below [len(row)] *)
Definition cell (row : RawRow) (i : nat) : pyobj := nth i row PyNone.

Definition row_dict (row : RawRow) : RowDict :=
  {| raw_Date := cell row 0;
     raw_Particulars := cell row 2;
     raw_Withdrawals := cell row 6;
     raw_Deposits := cell row 7;
     raw_Balance := cell row 8 |}.

(** [for row in table[1:]], threading the accumulator [rows]. *)
Fixpoint rows_loop (data : list RawRow) (rows : list RowDict) : list RowDict :=
  match data with
  | [] => rows
  | row :: data' =>
      if (length row <? 9)%nat then rows_loop data' rows
      else rows_loop data' (rows ++ [row_dict row])
  end.

(** [for page in pdf.pages] *)
Fixpoint pages_loop (pages : list Page) (rows : list RowDict) : list RowDict :=
  match pages with
  | [] => rows
  | page :: pages' =>
      match page with
      | None | Some [] => pages_loop pages' rows
      | Some table => pages_loop pages' (rows_loop (tl table) rows)
      end
  end.

Definition extract (pdf : list Page) : list RowDict := pages_loop pdf [].

(** ** Dates *)

Inductive CalendarMonth : Type :=
| January | February | March | April | May | June
| July | August | September | October | November | December.

Definition month_number (m : CalendarMonth) : Z :=
  match m with
  | January => 1 | February => 2 | March => 3 | April => 4
  | May => 5 | June => 6 | July => 7 | August => 8
  | September => 9 | October => 10 | November => 11 | December => 12
  end.

Definition month_name (m : CalendarMonth) : string :=
  match m with
  | January => "January" | February => "February" | March => "March"
  | April => "April" | May => "May" | June => "June"
  | July => "July" | August => "August" | September => "September"
  | October => "October" | November => "November" | December => "December"
  end.

(** A [pd.Timestamp]: the calendar date and the time within the day
    (in nanoseconds). *)
Record Timestamp : Type := mkTimestamp {
  year : Z;
  month : CalendarMonth;
  day : Z;
  time : Z
}.

Definition Timestamp_compare (a b : Timestamp) : comparison :=
  match (year a ?= year b)%Z with
  | Eq =>
      match (month_number (month a) ?= month_number (month b))%Z with
      | Eq =>
          match (day a ?= day b)%Z with
          | Eq => (time a ?= time b)%Z
          | c => c
          end
      | c => c
      end
  | c => c
  end.

(** [None] is [NaT]. *)
Definition Datetime : Type := option Timestamp.

(** [a <= b] as [sort_values] orders the column: ascending, [NaT] last. *)
Definition date_le (a b : Datetime) : bool :=
  match a, b with
  | _, None => true
  | None, Some _ => false
  | Some x, Some y =>
      match Timestamp_compare x y with Gt => false | _ => true end
  end.

(** [.dt.strftime("%B %Y")]: [NaT] gives a missing label. *)
Definition strftime_B_Y (d : Datetime) : option string :=
  match d with
  | None => None
  | Some t => Some (month_name (month t) ++ " " ++ str (PyInt (year t)))%string
  end.

(** ** The data frame *)

Record Transaction : Type := mkTransaction {
  Date : Datetime;
  Particulars : pyobj;
  Withdrawals : pyfloat;
  Deposits : pyfloat;
  Balance : pyfloat
}.

Definition DataFrame : Type := list Transaction.

(** [pd.DataFrame(rows)] with the three amount columns and the date column
    replaced: the i-th record takes the i-th entry of each column. *)
Fixpoint frame (rows : list RowDict) (date : list Datetime)
    (w d b : list pyfloat) : DataFrame :=
  match rows, date, w, d, b with
  | r :: rows', dt :: date', w0 :: w', d0 :: d', b0 :: b' =>
      mkTransaction dt (raw_Particulars r) w0 d0 b0
      :: frame rows' date' w' d' b'
  | _, _, _, _, _ => []
  end.

(** [df.sort_values("Date")]: ascending, [NaT] last.  The order pandas
    gives to records with equal dates depends on its sorting routine; here
    they keep their order, and no property below depends on it. *)
Fixpoint insert_by_date (t : Transaction) (df : DataFrame) : DataFrame :=
  match df with
  | [] => [t]
  | u :: df' =>
      if date_le (Date t) (Date u) then t :: df
      else u :: insert_by_date t df'
  end.

Definition sort_values (df : DataFrame) : DataFrame :=
  fold_right insert_by_date [] df.

(** [Series.sum()]: missing values (nan) are skipped. *)
Definition skipna (x : pyfloat) : pyfloat :=
  if isnan x then dec 0 else x.

Definition nanadd (acc x : pyfloat) : pyfloat := fadd acc (skipna x).

Definition Series_sum (col : list pyfloat) : pyfloat :=
  fold_left nanadd col (dec 0).

(** [groupby(key)[cols].sum()]: rows with a missing key are dropped, the
    groups come out in ascending key order, each with the sum of its rows. *)
Section GroupBy.
Context {V : Type} (vzero : V) (vadd : V -> V -> V).

Fixpoint upsert (k : string) (v : V) (groups : list (string * V))
    : list (string * V) :=
  match groups with
  | [] => [(k, vadd vzero v)]
  | (k', v') :: groups' =>
      match String.compare k k' with
      | Eq => (k', vadd v' v) :: groups'
      | Lt => (k, vadd vzero v) :: groups
      | Gt => (k', v') :: upsert k v groups'
      end
  end.

Definition groupby_step (groups : list (string * V))
    (row : option string * V) : list (string * V) :=
  match fst row with
  | None => groups
  | Some k => upsert k (snd row) groups
  end.

Definition groupby_sum (rows : list (option string * V))
    : list (string * V) :=
  fold_left groupby_step rows [].
End GroupBy.

Definition nanadd2 (acc x : pyfloat * pyfloat) : pyfloat * pyfloat :=
  (nanadd (fst acc) (fst x), nanadd (snd acc) (snd x)).

(** ** The report *)

Record Report : Type := mkReport {
  df : DataFrame;
  total_debit : pyfloat;
  total_credit : pyfloat;
  net_cash : pyfloat;
  Month : list (option string);
  monthly : list (string * (pyfloat * pyfloat));
  Category : list string;
  category_summary : list (string * pyfloat)
}.

(** How the data part of the script ends: with no row extracted (the
    [else] branch, line 126), with the data of the report computed, or
    with the exception that [clean_amount] raised in lines 44 to 46.
    [Generated] says nothing of the charts and the export that the script
    goes on to. *)
Inductive outcome : Type :=
| NoData
| Generated (r : Report)
| Failed (e : exn).

Section Pipeline.

(** [pd.to_datetime(column, dayfirst=True, errors="coerce")]: the parsed
    value of an element of [column] ([None] for [NaT]); the format may be
    guessed from the whole column. *)
Variable to_datetime : list pyobj -> pyobj -> Datetime.

(** The data computed in the body of [if rows:], lines 41 to 106: the
    cleaned and sorted frame, the totals, the monthly summary and the
    category summary.  The statements that draw the table, the metrics and
    the charts and that write the Excel file are left out; the script can
    still raise in them after, or between, the steps modelled here. *)
Definition report (rows : list RowDict) : result Report :=
  w <- mapM clean_amount (map raw_Withdrawals rows) ;;
  d <- mapM clean_amount (map raw_Deposits rows) ;;
  b <- mapM clean_amount (map raw_Balance rows) ;;
  let date := map (to_datetime (map raw_Date rows)) (map raw_Date rows) in
  let df := sort_values (frame rows date w d b) in
  let total_debit := Series_sum (map Withdrawals df) in
  let total_credit := Series_sum (map Deposits df) in
  let net_cash := fsub total_credit total_debit in
  let Month := map (fun t => strftime_B_Y (Date t)) df in
  let monthly :=
    groupby_sum (dec 0, dec 0) nanadd2
      (combine Month (map (fun t => (Withdrawals t, Deposits t)) df)) in
  let Category := map (fun t => categorize (Particulars t)) df in
  let category_summary :=
    groupby_sum (dec 0) nanadd
      (combine (map Some Category) (map Withdrawals df)) in
  Ok (mkReport df total_debit total_credit net_cash
        Month monthly Category category_summary).

Definition main (pdf : list Page) : outcome :=
  match extract pdf with
  | [] => NoData
  | rows =>
      match report rows with
      | Ok r => Generated r
      | Raise e => Failed e
      end
  end.

End Pipeline.

(** A day-first reader for dates written [DD/MM/YYYY]; anything else is
    [NaT].  It is not the reader of pandas, which accepts more formats and
    may guess one from the column: it is an instance of the parameter
    [to_datetime], used for the sample statements only, whose dates pandas
    reads the same way. *)
Module DayFirst.
Import PyStr PyFloat.

Definition month_of_number (n : N) : option CalendarMonth :=
  match n with
  | 1 => Some January | 2 => Some February | 3 => Some March
  | 4 => Some April | 5 => Some May | 6 => Some June
  | 7 => Some July | 8 => Some August | 9 => Some September
  | 10 => Some October | 11 => Some November | 12 => Some December
  | _ => None
  end%N.

Definition is_leap (y : N) : bool :=
  ((y mod 4 =? 0) && (negb (y mod 100 =? 0) || (y mod 400 =? 0)))%N.

Definition days_in_month (y : N) (m : CalendarMonth) : N :=
  match m with
  | February => if is_leap y then 29 else 28
  | April | June | September | November => 30
  | _ => 31
  end%N.

Definition parse (s : string) : Datetime :=
  let (dd, s1) := span_digits s in
  match s1 with
  | String "/" s2 =>
      let (mm, s3) := span_digits s2 in
      match s3 with
      | String "/" s4 =>
          let (yy, s5) := span_digits s4 in
          let d := digits_value 0 dd in
          let y := digits_value 0 yy in
          match s5, month_of_number (digits_value 0 mm) with
          | EmptyString, Some m =>
              if (String.length dd =? 2)%nat && (String.length mm =? 2)%nat
                 && (String.length yy =? 4)%nat
                 && (1 <=? d)%N && (d <=? days_in_month y m)%N
                 && (1677 <? y)%N && (y <? 2262)%N
              then Some (mkTimestamp (Z.of_N y) m (Z.of_N d) 0)
              else None
          | _, _ => None
          end
      | _ => None
      end
  | _ => None
  end.

Definition to_datetime (column : list pyobj) (x : pyobj) : Datetime :=
  match x with
  | PyStr s => parse s
  | _ => None
  end.

End DayFirst.

(** * Specification vocabulary *)

Fixpoint forall_chars (P : ascii -> bool) (s : string) : bool :=
  match s with
  | EmptyString => true
  | String c s' => P c && forall_chars P s'
  end.

(** The first character, if any, does not satisfy [P]. *)
Definition head_not (P : ascii -> bool) (s : string) : Prop :=
  match s with
  | EmptyString => True
  | String c _ => P c = false
  end.

(** [t] is [s] without the characters satisfying [ws] at both ends. *)
Definition stripped_of (ws : ascii -> bool) (s t : string) : Prop :=
  exists l r,
    s = (l ++ t ++ r)%string
    /\ forall_chars ws l = true /\ forall_chars ws r = true
    /\ head_not ws t /\ head_not ws (PyStr.rev t).

(** The test [x.startswith("(") and x.endswith(")")] of [clean_amount]. *)
Definition wrapped (x : string) : bool :=
  PyStr.startswith "(" x && PyStr.endswith ")" x.

(** The text [clean_amount] works on: [str(x)] without its commas and
    surrounding whitespace. *)
Definition cleaned (x : pyobj) : string :=
  PyStr.strip (PyStr.replace "," "" (str x)).

(** [needle] occurs in [hay]. *)
Definition is_substring (needle hay : string) : Prop :=
  exists pre post, hay = (pre ++ needle ++ post)%string.

(** [s] holds [keyword] in some mix of upper and lower case. *)
Definition ci_substring (keyword s : string) : Prop :=
  exists pre k post,
    s = (pre ++ k ++ post)%string /\ PyStr.lower k = keyword.

(** The classifier as an ordered rule list: the first rule with a keyword
    occurring in the lowered text gives the label. *)
Definition rules : list (list string * string) :=
  [ (["loan"], "Loan");
    (["salary"], "Salary");
    (["neft"], "NEFT");
    (["upi"], "UPI");
    (["transfer"; "tfr"], "Transfer") ].

Fixpoint first_match (rs : list (list string * string)) (d : string)
    : string :=
  match rs with
  | [] => "Others"
  | (keywords, label) :: rs' =>
      if existsb (fun k => PyStr.contains k d) keywords then label
      else first_match rs' d
  end.

Definition labels : list string :=
  ["Loan"; "Salary"; "NEFT"; "UPI"; "Transfer"; "Others"].


(** [row] is a data row of [pdf]: a row after the first of the table of
    one of its pages. *)
Definition is_data_row (pdf : list Page) (row : RawRow) : Prop :=
  exists table i, In (Some table) pdf /\ nth_error table (S i) = Some row.

(** The records one page contributes. *)
Definition page_rows (page : Page) : list RowDict :=
  match page with
  | None => []
  | Some table =>
      map row_dict (filter (fun row => (9 <=? length row)%nat) (tl table))
  end.

(** The Row Normalizer: the record a raw row becomes, given the parsed
    date.  [report] does the same work a column at a time. *)
Definition normalize (date : Datetime) (r : RowDict) : result Transaction :=
  w <- clean_amount (raw_Withdrawals r) ;;
  d <- clean_amount (raw_Deposits r) ;;
  b <- clean_amount (raw_Balance r) ;;
  Ok (mkTransaction date (raw_Particulars r) w d b).

(** [t] is the record of the raw row [row] of a date column [column]. *)
Definition transaction_of
    (to_datetime : list pyobj -> pyobj -> Datetime)
    (column : list pyobj) (row : RowDict) (t : Transaction) : Prop :=
  normalize (to_datetime column (raw_Date row)) row = Ok t.

(** Both dates are known and the first is not after the second. *)
Definition date_nondecreasing (a b : Transaction) : Prop :=
  match Date a, Date b with
  | Some x, Some y => Timestamp_compare x y <> Gt
  | _, _ => False
  end.

Definition known_date (t : Transaction) : bool :=
  match Date t with Some _ => true | None => false end.

(** The order [sort_values] establishes on the frame. *)
Definition date_ordered (a b : Transaction) : Prop :=
  date_le (Date a) (Date b) = true.

(** ** Sample statements *)

Definition header : RawRow :=
  map PyStr ["Date"; "Ref"; "Particulars"; "Chq"; "Type"; "Value Date";
             "Withdrawals"; "Deposits"; "Balance"].

Definition salary_row : RawRow :=
  map PyStr ["01/02/2023"; ""; "Salary Credit"; ""; ""; "";
             "0"; "50,000.00"; "50,000.00"].

Definition loan_row : RawRow :=
  map PyStr ["05/02/2023"; ""; "Loan EMI"; ""; ""; "";
             "(5,000.00)"; "0"; "45,000.00"].

(** A row whose date cannot be read. *)
Definition undated_row : RawRow :=
  map PyStr ["??"; ""; "UPI payment"; ""; ""; "";
             "700.00"; "0"; "44,300.00"].

(** A row with only eight cells. *)
Definition short_row : RawRow :=
  map PyStr ["06/02/2023"; ""; "NEFT"; ""; ""; ""; "1.00"; "0"].

(** The two sample rows under any header row. *)
Definition scenario_pdf (header : RawRow) : list Page :=
  [Some [header; salary_row; loan_row]].

Definition undated_pdf : list Page :=
  [Some [header; undated_row; salary_row]; None; Some [header; short_row]].

(** ** Groups *)

(** The values of the rows whose key is [k], in row order. *)
Definition group_of {V : Type} (k : string) (rows : list (option string * V))
    : list V :=
  map snd
    (filter (fun row => match fst row with
                        | Some k' => k' =? k
                        | None => false
                        end) rows).

(** Keys in strictly ascending order. *)
Definition keys_ascending {V : Type} (groups : list (string * V)) : Prop :=
  StronglySorted (fun a b => String.compare (fst a) (fst b) = Lt) groups.

(** The records of a frame whose month label is [k]. *)
Definition in_month (k : string) (t : Transaction) : bool :=
  match strftime_B_Y (Date t) with
  | Some k' => k' =? k
  | None => false
  end.




(** The month label and the two summed columns of a record. *)
Definition label (t : Transaction) : option string := strftime_B_Y (Date t).

Definition amounts (t : Transaction) : pyfloat * pyfloat :=
  (Withdrawals t, Deposits t).

(** ** Signs *)

Definition is_minus (c : ascii) : bool := Ascii.eqb c "-".

(** The cleaned text of the cell is neither wrapped in parentheses nor
    begins with a minus sign. *)
Definition unsigned (x : pyobj) : Prop :=
  wrapped (cleaned x) = false /\ head_not is_minus (cleaned x).

(** [0.0 <= v] *)
Definition nonnegative (v : pyfloat) : Prop := fle (dec 0) v = true.

(** ** Decimal texts *)

Definition all_digits (s : string) : Prop :=
  forall_chars PyStr.isdigit s = true.

(** The number written with the given digits, the last [places] of them
    after the decimal point. *)
Definition decimal_number (digits : string) (places : nat) : pyfloat :=
  dec (inject_Z (Z.of_N (PyFloat.digits_value 0 digits))
       / inject_Z (10 ^ Z.of_nat places))%Q.

(** A digit or the decimal point. *)
Definition plain_char (c : ascii) : bool :=
  PyStr.isdigit c || Ascii.eqb c ".".

(** All three amount cells of the row are accepted by [clean_amount]. *)
Definition amounts_parse (d : RowDict) : Prop :=
  exists w c b,
    clean_amount (raw_Withdrawals d) = Ok w
    /\ clean_amount (raw_Deposits d) = Ok c
    /\ clean_amount (raw_Balance d) = Ok b.

(** ** Binary64 *)

(** The float is one that binary64 holds exactly: an integer below 2^53
    over a power of two not above 2^1074.  For such values, and sums that
    stay among them, the exact arithmetic of the model is that of the
    machine. *)
Definition binary64_exact (x : pyfloat) : bool :=
  match x with
  | Fin q =>
      let n := Z.abs (Qnum q) in
      let d := Zpos (Qden q) in
      ((n <? 2 ^ 53) && (d =? 2 ^ Z.log2 d) && (d <=? 2 ^ 1074))%Z
  | _ => true
  end.

(** Every amount a report shows. *)
Definition report_amounts (r : Report) : list pyfloat :=
  map Withdrawals (df r) ++ map Deposits (df r) ++ map Balance (df r)
  ++ [total_debit r; total_credit r; net_cash r]
  ++ map (fun e => fst (snd e)) (monthly r)
  ++ map (fun e => snd (snd e)) (monthly r)
  ++ map snd (category_summary r).

(** * The rest of the program *)

(** The data part of the whole script: without an upload [rows] stays
    empty and the [else] branch shows the upload hint. *)
Definition app (to_datetime : list pyobj -> pyobj -> Datetime)
    (uploaded_file : option (list Page)) : outcome :=
  match uploaded_file with
  | None => NoData
  | Some pdf => main to_datetime pdf
  end.

(** The rows after the header of all the tables of a document. *)
Definition data_row_count (pdf : list Page) : nat :=
  list_sum (map (fun page => match page with
                             | Some table => length (tl table)
                             | None => 0
                             end) pdf).

(** The records of a frame that [categorize] puts in category [c]. *)
Definition in_category (c : string) (t : Transaction) : bool :=
  categorize (Particulars t) =? c.

(** The records that each entry of the category summary sums, entry by
    entry. *)
Definition category_groups (r : Report) : list (list Transaction) :=
  map (fun e => filter (in_category (fst e)) (df r)) (category_summary r).

(** The month labels of the dated records of a frame, one per record. *)
Definition labels_of (l : DataFrame) : list string :=
  flat_map (fun t => match label t with
                     | Some k => [k]
                     | None => []
                     end) l.

(** A statement with a January row followed by an April row. *)
Definition january_row : RawRow :=
  map PyStr ["15/01/2023"; ""; "NEFT rent"; ""; ""; "";
             "100.00"; "0"; "900.00"].

Definition april_row : RawRow :=
  map PyStr ["10/04/2023"; ""; "UPI shop"; ""; ""; "";
             "200.00"; "0"; "700.00"].

Definition spring_pdf : list Page :=
  [Some [header; january_row]; Some [header; april_row]].

(** [c] is, up to ASCII case, one of the characters of [text]. *)
Definition in_text (text : string) (c : ascii) : bool :=
  existsb (Ascii.eqb (PyFloat.tolower c)) (list_ascii_of_string text).

(** The characters that can occur in a text [float] accepts: digits, the
    signs, the point, the underscore, the letters of the exponent and of
    the words inf, infinity and nan, and whitespace. *)
Definition float_char (c : ascii) : bool :=
  PyStr.isdigit c || PyFloat.isspace_c c || in_text "+-._aefinty" c.

(** [c] occurs in [s]. *)
Definition occurs (c : ascii) (s : string) : Prop :=
  exists a b, s = (a ++ String c b)%string.

(** [float] consumed a prefix of [s] made of its characters and left [r]. *)
Definition consumed (s r : string) : Prop :=
  exists p, s = (p ++ r)%string /\ forall_chars float_char p = true.

(** A sign or a whitespace character of [float]. *)
Definition sign_or_space (c : ascii) : bool :=
  Ascii.eqb c "-" || Ascii.eqb c "+" || PyFloat.isspace_c c.

(** The value of a text with the sign character [sg] before it. *)
Definition signed (sg : ascii) (v : pyfloat) : pyfloat :=
  if Ascii.eqb sg "-" then fneg v else v.

(** The position of a label in the order of the tests of [categorize]. *)
Definition rank (c : string) : nat :=
  if c =? "Loan" then 0
  else if c =? "Salary" then 1
  else if c =? "NEFT" then 2
  else if c =? "UPI" then 3
  else if c =? "Transfer" then 4
  else 5.

(** * Properties *)

(** ** Strings *)

Module PyStrFacts.
Import PyStr.

Lemma append_nil_r (s : string) : (s ++ "")%string = s.
Proof. induction s; simpl; congruence. Qed.

Lemma append_assoc (a b c : string) :
  ((a ++ b) ++ c)%string = (a ++ (b ++ c))%string.
Proof. induction a; simpl; congruence. Qed.

Lemma rev_onto_append (s acc : string) :
  rev_onto s acc = (rev s ++ acc)%string.
Proof.
  unfold rev. revert acc.
  induction s as [|c s IH]; intros acc; simpl; [reflexivity|].
  rewrite IH, (IH (String c "")), append_assoc. reflexivity.
Qed.

Lemma rev_cons (c : ascii) (s : string) :
  rev (String c s) = (rev s ++ String c "")%string.
Proof. unfold rev at 1. simpl. apply rev_onto_append. Qed.

Lemma rev_append (a b : string) :
  rev (a ++ b) = (rev b ++ rev a)%string.
Proof.
  induction a as [|c a IH]; simpl.
  - now rewrite append_nil_r.
  - now rewrite !rev_cons, IH, append_assoc.
Qed.

Lemma rev_involutive (s : string) : rev (rev s) = s.
Proof.
  induction s as [|c s IH]; [reflexivity|].
  now rewrite rev_cons, rev_append, IH.
Qed.

Lemma forall_chars_append P (a b : string) :
  forall_chars P (a ++ b) = forall_chars P a && forall_chars P b.
Proof.
  induction a as [|c a IH]; simpl; [reflexivity|].
  now rewrite IH, andb_assoc.
Qed.

Lemma forall_chars_rev P (s : string) :
  forall_chars P (rev s) = forall_chars P s.
Proof.
  induction s as [|c s IH]; [reflexivity|].
  rewrite rev_cons, forall_chars_append, IH. simpl.
  now rewrite andb_true_r, andb_comm.
Qed.

Lemma lstrip_by_split ws (s : string) :
  exists l, s = (l ++ lstrip_by ws s)%string
            /\ forall_chars ws l = true
            /\ head_not ws (lstrip_by ws s).
Proof.
  induction s as [|c s (l & E & Hl & Hh)]; simpl.
  - exists ""; auto.
  - destruct (ws c) eqn:Hc.
    + exists (String c l); simpl. rewrite Hc, Hl. now rewrite <- E.
    + exists ""; simpl; auto.
Qed.

Lemma rstrip_by_split ws (s : string) :
  exists r, s = (rstrip_by ws s ++ r)%string
            /\ forall_chars ws r = true
            /\ head_not ws (rev (rstrip_by ws s)).
Proof.
  unfold rstrip_by.
  destruct (lstrip_by_split ws (rev s)) as (l & E & Hl & Hh).
  exists (rev l). rewrite rev_involutive, forall_chars_rev.
  repeat split; auto.
  apply (f_equal rev) in E. now rewrite rev_involutive, rev_append in E.
Qed.

(** A prefix of a string that does not start with [P] does not either. *)
Lemma head_not_prefix P (a b : string) :
  head_not P (a ++ b) -> head_not P a.
Proof. destruct a; simpl; auto. Qed.

Lemma strip_by_spec ws (s : string) : stripped_of ws s (strip_by ws s).
Proof.
  unfold strip_by.
  destruct (lstrip_by_split ws s) as (l & El & Hl & Hh).
  destruct (rstrip_by_split ws (lstrip_by ws s)) as (r & Er & Hr & Ht).
  exists l, r. repeat split; auto.
  - now rewrite <- Er.
  - apply head_not_prefix with (b := r). now rewrite <- Er.
Qed.

(** [replace c ""] keeps exactly the characters other than [c], in
    order. *)
Lemma replace_empty_filter (c : ascii) (s : string) :
  list_ascii_of_string (replace c "" s)
  = filter (fun a => negb (Ascii.eqb a c)) (list_ascii_of_string s).
Proof.
  induction s as [|a s IH]; simpl; [reflexivity|].
  destruct (Ascii.eqb a c); simpl; congruence.
Qed.

Lemma length_append (a b : string) :
  String.length (a ++ b) = (String.length a + String.length b)%nat.
Proof. induction a; simpl; congruence. Qed.

Lemma substring_all_but_last (u : string) (c : ascii) :
  substring 0 (String.length u) (u ++ String c "") = u.
Proof. induction u as [|a u IH]; simpl; congruence. Qed.

Lemma slice_wrapped (u : string) (a b : ascii) :
  slice_1_m1 (String a (u ++ String b "")) = u.
Proof.
  unfold slice_1_m1. simpl String.length.
  rewrite length_append. simpl String.length.
  replace (S (String.length u + 1) - 2)%nat with (String.length u) by lia.
  simpl. apply substring_all_but_last.
Qed.

Lemma prefix_cons (a b : ascii) (s1 s2 : string) :
  String.prefix (String a s1) (String b s2)
  = Ascii.eqb a b && String.prefix s1 s2.
Proof.
  cbn [String.prefix]. destruct (ascii_dec a b) as [->|n].
  - now rewrite Ascii.eqb_refl.
  - apply Ascii.eqb_neq in n. now rewrite n.
Qed.

Lemma prefix_empty (s : string) : String.prefix "" s = true.
Proof. now destruct s. Qed.

(** [x.startswith("(") and x.endswith(")")] holds exactly for the
    strings ["(" ++ u ++ ")"], and then [x[1:-1]] is [u]. *)
Lemma wrapped_iff (x : string) :
  wrapped x = true <-> exists u, x = ("(" ++ u ++ ")")%string.
Proof.
  unfold wrapped, startswith, endswith. split.
  - intros H. apply andb_true_iff in H as [H1 H2].
    destruct x as [|a x]; [discriminate|].
    rewrite prefix_cons in H1. apply andb_true_iff in H1 as [H1 _].
    apply Ascii.eqb_eq in H1. subst a.
    assert (E : exists y, rev (String "(" x) = String ")" y).
    { destruct (rev (String "(" x)) as [|b y]; [discriminate|].
      change (rev ")") with (String ")" "") in H2.
      rewrite prefix_cons in H2. apply andb_true_iff in H2 as [H2 _].
      apply Ascii.eqb_eq in H2. subst b. now exists y. }
    destruct E as [y E].
    apply (f_equal rev) in E. rewrite rev_involutive, rev_cons in E.
    destruct (rev y) as [|b z]; simpl in E; [discriminate|].
    injection E as <- ->. now exists z.
  - intros [u ->].
    change ("(" ++ u ++ ")")%string with (String "(" (u ++ ")")).
    rewrite prefix_cons, prefix_empty.
    change (String "(" (u ++ ")")) with ("(" ++ (u ++ ")"))%string.
    rewrite !rev_append.
    change (rev ")") with (String ")" "").
    cbn [append]. now rewrite prefix_cons, prefix_empty.
Qed.

Lemma slice_of_wrapped (u : string) :
  slice_1_m1 ("(" ++ u ++ ")") = u.
Proof. apply slice_wrapped. Qed.

End PyStrFacts.

(** ** Floats *)

(** Equality of results holding concrete floats. *)
Ltac float_eq :=
  vm_compute;
  repeat first
    [ reflexivity
    | apply Qc_is_canon; reflexivity
    | match goal with
      | |- @eq Qc _ _ => fail 2
      | _ => f_equal
      end ].

(** What [float] accepts and what it rejects. *)
Lemma float_examples :
  PyFloat.float "1234.50" = Ok (dec 1234.5)
  /\ PyFloat.float " 12 " = Ok (dec 12)
  /\ PyFloat.float "+5" = Ok (dec 5)
  /\ PyFloat.float "-.5" = Ok (dec (-0.5))
  /\ PyFloat.float "5." = Ok (dec 5)
  /\ PyFloat.float "1e3" = Ok (dec 1000)
  /\ PyFloat.float "1.5E-3" = Ok (dec 0.0015)
  /\ PyFloat.float "1_000.5" = Ok (dec 1000.5)
  /\ PyFloat.float "inf" = Ok (Inf false)
  /\ PyFloat.float "-Infinity" = Ok (Inf true)
  /\ PyFloat.float "NaN" = Ok NaN
  /\ Forall (fun s => PyFloat.float s = Raise ValueError)
       [""; " "; "."; "e5"; "1e"; "1e+"; "1__0"; "_1"; "1_"; "1 _0"; "0x10";
        "1,000"; "(5)"; "None"; "infinit"; "nanx"; "+-5"; "5 6"; "1.2.3"].
Proof.
  repeat match goal with |- _ /\ _ => split end;
    try (repeat constructor; fail); float_eq.
Qed.

(** ** [clean_amount] *)

Lemma clean_amount_unfold (x : pyobj) :
  clean_amount x =
    if wrapped (cleaned x) then
      v <- PyFloat.float (PyStr.slice_1_m1 (cleaned x)) ;; Ok (fneg v)
    else if negb (cleaned x =? "") && negb (cleaned x =? "None")
         then PyFloat.float (cleaned x)
         else Ok (dec 0).
Proof. reflexivity. Qed.

Lemma clean_amount_wrapped (x : pyobj) (u : string) :
  cleaned x = ("(" ++ u ++ ")")%string ->
  clean_amount x = (v <- PyFloat.float u ;; Ok (fneg v)).
Proof.
  intros E. rewrite clean_amount_unfold.
  assert (W : wrapped (cleaned x) = true)
    by (apply PyStrFacts.wrapped_iff; eauto).
  now rewrite W, E, PyStrFacts.slice_of_wrapped.
Qed.

Lemma clean_amount_empty (x : pyobj) :
  cleaned x = "" \/ cleaned x = "None" -> clean_amount x = Ok (dec 0).
Proof.
  intros H. rewrite clean_amount_unfold.
  destruct H as [-> | ->]; reflexivity.
Qed.

Lemma clean_amount_plain (x : pyobj) :
  wrapped (cleaned x) = false ->
  cleaned x <> "" -> cleaned x <> "None" ->
  clean_amount x = PyFloat.float (cleaned x).
Proof.
  intros W H1 H2. rewrite clean_amount_unfold, W.
  apply String.eqb_neq in H1, H2. now rewrite H1, H2.
Qed.

(** ** C7: unparsable amounts *)

(** C7. When the cleaned text of a cell is not empty, not ["None"], not
    accepted by [float] and not a parenthesised text whose interior [float]
    accepts, [clean_amount] raises; it returns no value, 0.0 included. *)
Theorem clean_amount_unparsable_raises (x : pyobj) :
  cleaned x <> "" ->
  cleaned x <> "None" ->
  ~ (exists v, PyFloat.float (cleaned x) = Ok v) ->
  ~ (exists u v, cleaned x = ("(" ++ u ++ ")")%string
                 /\ PyFloat.float u = Ok v) ->
  clean_amount x = Raise ValueError
  /\ forall v, clean_amount x <> Ok v.
Proof.
  intros Hne Hnn Hnum Hacc.
  assert (R : clean_amount x = Raise ValueError).
  { destruct (wrapped (cleaned x)) eqn:W.
    - apply PyStrFacts.wrapped_iff in W as [u E].
      rewrite (clean_amount_wrapped x u E).
      destruct (PyFloat.float u) as [v|[]] eqn:F; [|reflexivity].
      exfalso. apply Hacc. now exists u, v.
    - rewrite (clean_amount_plain x W Hne Hnn).
      destruct (PyFloat.float (cleaned x)) as [v|[]] eqn:F; [|reflexivity].
      exfalso. apply Hnum. now exists v. }
  split; [exact R|]. intros v. rewrite R. discriminate.
Qed.

Lemma clean_amount_unparsable_raises_witness :
  clean_amount (PyStr " 12,5O0.00 ") = Raise ValueError
  /\ forall v, clean_amount (PyStr " 12,5O0.00 ") <> Ok v.
Proof.
  apply (clean_amount_unparsable_raises (PyStr " 12,5O0.00 ")).
  - vm_compute. discriminate.
  - vm_compute. discriminate.
  - intros [v H]. vm_compute in H. discriminate.
  - intros (u & v & H & _). vm_compute in H. discriminate.
Defined.

(** Texts that are neither numbers nor parenthesised numbers. *)
Lemma clean_amount_raises_examples :
  Forall (fun s => clean_amount (PyStr s) = Raise ValueError)
    ["abc"; "12.3.4"; "1,2x"; "()"; "(None)"; "("; "-"; "--5"; "1e";
     "Rs 500"; "5 000"; "(5)(6)"; "0x1F"; "1__0"; "."].
Proof. repeat constructor. Qed.

(** A value comes out of [clean_amount] only by one of its three routes. *)
Lemma clean_amount_value (x : pyobj) (v : pyfloat) :
  clean_amount x = Ok v ->
  ((cleaned x = "" \/ cleaned x = "None") /\ v = dec 0)
  \/ PyFloat.float (cleaned x) = Ok v
  \/ exists u w, cleaned x = ("(" ++ u ++ ")")%string
                 /\ PyFloat.float u = Ok w /\ v = fneg w.
Proof.
  intros H. destruct (wrapped (cleaned x)) eqn:W.
  - apply PyStrFacts.wrapped_iff in W as [u E].
    rewrite (clean_amount_wrapped x u E) in H.
    destruct (PyFloat.float u) as [w|e] eqn:F; [|discriminate].
    right; right. exists u, w. simpl in H. injection H as <-. auto.
  - rewrite clean_amount_unfold, W in H.
    destruct (cleaned x =? "") eqn:E1.
    { apply String.eqb_eq in E1. left. simpl in H. injection H as <-. auto. }
    destruct (cleaned x =? "None") eqn:E2.
    { apply String.eqb_eq in E2. left. simpl in H. injection H as <-. auto. }
    right; left. exact H.
Qed.

(** ** C4, C10: [categorize] *)

Module CategorizeFacts.
Import PyStr PyStrFacts.

Lemma prefix_iff (p s : string) :
  String.prefix p s = true <-> exists post, s = (p ++ post)%string.
Proof.
  revert s. induction p as [|a p IH]; intros s.
  - rewrite prefix_empty. split; auto. intros _. now exists s.
  - destruct s as [|b s].
    + split; [discriminate|]. intros [post E]. discriminate.
    + rewrite prefix_cons, andb_true_iff, Ascii.eqb_eq, IH. split.
      * intros [-> [post ->]]. now exists post.
      * intros [post E]. injection E as -> ->. split; eauto.
Qed.

Lemma contains_iff (needle hay : string) :
  contains needle hay = true <-> is_substring needle hay.
Proof.
  unfold is_substring. induction hay as [|c hay IH].
  - cbn [contains]. rewrite orb_false_r, prefix_iff. split.
    + intros [post E]. now exists "", post.
    + intros (pre & post & E). destruct pre; [|discriminate]. now exists post.
  - cbn [contains]. rewrite orb_true_iff, prefix_iff, IH. split.
    + intros [[post E] | (pre & post & E)].
      * now exists "", post.
      * exists (String c pre), post. simpl. now rewrite E.
    + intros (pre & post & E). destruct pre as [|a pre].
      * left. now exists post.
      * right. injection E as -> E. now exists pre, post.
Qed.

Lemma lower_append (a b : string) :
  lower (a ++ b) = (lower a ++ lower b)%string.
Proof. induction a; simpl; congruence. Qed.

Lemma lower_split (s a b : string) :
  lower s = (a ++ b)%string ->
  exists a' b', s = (a' ++ b')%string /\ lower a' = a /\ lower b' = b.
Proof.
  revert s. induction a as [|c a IH]; intros s E.
  - now exists "", s.
  - destruct s as [|c' s]; [discriminate|].
    simpl in E. injection E as Ec E.
    destruct (IH s E) as (a' & b' & -> & Ha & Hb).
    exists (String c' a'), b'. simpl. now rewrite Ec, Ha.
Qed.

(** [k in s.lower()] is the search for [k] in [s] up to case. *)
Lemma contains_lower_iff (k s : string) :
  contains k (lower s) = true <-> ci_substring k s.
Proof.
  rewrite contains_iff. unfold is_substring, ci_substring. split.
  - intros (pre & post & E).
    apply lower_split in E as (pre' & r & -> & Hp & E).
    apply lower_split in E as (k' & post' & -> & Hk & Hq).
    now exists pre', k', post'.
  - intros (pre & k' & post & -> & <-).
    exists (lower pre), (lower post). now rewrite !lower_append.
Qed.

Lemma categorize_first_match (x : pyobj) :
  categorize x = first_match rules (lower (str x)).
Proof.
  unfold categorize, first_match, rules, existsb.
  repeat rewrite orb_false_r. reflexivity.
Qed.

Lemma first_match_labels (d : string) : In (first_match rules d) labels.
Proof.
  unfold first_match, rules, labels.
  repeat match goal with
         | |- context [if ?b then _ else _] => destruct b
         end; simpl; tauto.
Qed.

End CategorizeFacts.

(** C4. [categorize] gives one label by searching the particulars for the
    keywords up to case, the first rule that matches deciding: "loan",
    "salary", "neft", "upi", "transfer" or "tfr", else Others. *)
Theorem categorize_spec :
  (forall s, categorize (PyStr s) = first_match rules (PyStr.lower s))
  /\ (forall k s, PyStr.contains k (PyStr.lower s) = true <-> ci_substring k s)
  /\ (forall s,
        let c := categorize (PyStr s) in
        let has k := ci_substring k s in
        In c labels
        /\ (has "loan" -> c = "Loan")
        /\ (~ has "loan" -> has "salary" -> c = "Salary")
        /\ (~ has "loan" -> ~ has "salary" -> has "neft" -> c = "NEFT")
        /\ (~ has "loan" -> ~ has "salary" -> ~ has "neft" -> has "upi" ->
            c = "UPI")
        /\ (~ has "loan" -> ~ has "salary" -> ~ has "neft" -> ~ has "upi" ->
            has "transfer" \/ has "tfr" -> c = "Transfer")
        /\ (~ has "loan" -> ~ has "salary" -> ~ has "neft" -> ~ has "upi" ->
            ~ has "transfer" -> ~ has "tfr" -> c = "Others"))
  /\ categorize (PyStr "Salary Transfer to XYZ") = "Salary"
  /\ categorize (PyStr "NEFT UPI payment") = "NEFT"
  /\ categorize (PyStr "Grocery store") = "Others".
Proof.
  split; [intros s; apply (CategorizeFacts.categorize_first_match (PyStr s))|].
  split; [apply CategorizeFacts.contains_lower_iff|].
  split; [|repeat split; reflexivity].
  intros s c has.
  split.
  { subst c. rewrite CategorizeFacts.categorize_first_match.
    apply CategorizeFacts.first_match_labels. }
  subst c has. unfold categorize. cbn [str].
  pose proof (CategorizeFacts.contains_lower_iff "loan" s) as L.
  pose proof (CategorizeFacts.contains_lower_iff "salary" s) as S.
  pose proof (CategorizeFacts.contains_lower_iff "neft" s) as N.
  pose proof (CategorizeFacts.contains_lower_iff "upi" s) as U.
  pose proof (CategorizeFacts.contains_lower_iff "transfer" s) as T.
  pose proof (CategorizeFacts.contains_lower_iff "tfr" s) as F.
  destruct (PyStr.contains "loan" (PyStr.lower s));
  destruct (PyStr.contains "salary" (PyStr.lower s));
  destruct (PyStr.contains "neft" (PyStr.lower s));
  destruct (PyStr.contains "upi" (PyStr.lower s));
  destruct (PyStr.contains "transfer" (PyStr.lower s));
  destruct (PyStr.contains "tfr" (PyStr.lower s));
  cbn [orb];
  repeat split; intros;
  try reflexivity;
  repeat match goal with
         | H : true = true <-> _ |- _ => destruct H as [H _]; specialize (H eq_refl)
         | H : false = true <-> _ |- _ => destruct H as [_ H]
         end;
  try contradiction;
  repeat match goal with
         | H : _ \/ _ |- _ => destruct H
         | H : ?P -> false = true, H' : ?P |- _ => discriminate (H H')
         end.
Qed.

Module CategorizeTotal.
Import PyStr PyStrFacts.





End CategorizeTotal.


(** ** C8: the extraction loop *)

Module ExtractFacts.

Lemma rows_loop_eq (data : list RawRow) (rows : list RowDict) :
  rows_loop data rows
  = rows ++ map row_dict (filter (fun row => (9 <=? length row)%nat) data).
Proof.
  revert rows. induction data as [|row data IH]; intros rows.
  - simpl. now rewrite app_nil_r.
  - cbn [rows_loop filter]. rewrite Nat.leb_antisym.
    destruct (length row <? 9)%nat; cbn [negb].
    + apply IH.
    + rewrite IH. cbn [map]. now rewrite <- app_assoc.
Qed.

Lemma pages_loop_eq (pages : list Page) (rows : list RowDict) :
  pages_loop pages rows = rows ++ flat_map page_rows pages.
Proof.
  revert rows. induction pages as [|page pages IH]; intros rows; simpl.
  - now rewrite app_nil_r.
  - destruct page as [[|header data]|]; simpl; rewrite IH; try reflexivity.
    now rewrite rows_loop_eq, <- app_assoc.
Qed.

Lemma extract_eq (pdf : list Page) : extract pdf = flat_map page_rows pdf.
Proof. unfold extract. now rewrite pages_loop_eq. Qed.

Lemma In_tl_nth_error {A : Type} (l : list A) (a : A) :
  In a (tl l) <-> exists i, nth_error l (S i) = Some a.
Proof.
  destruct l as [|h l]; simpl.
  - split; [tauto|]. intros [i H]. discriminate.
  - split.
    + intros H. apply In_nth_error in H. exact H.
    + intros [i H]. now apply nth_error_In in H.
Qed.

Lemma In_extract (pdf : list Page) (d : RowDict) :
  In d (extract pdf) <->
  exists row, is_data_row pdf row /\ 9 <= length row /\ d = row_dict row.
Proof.
  rewrite extract_eq, in_flat_map. unfold is_data_row. split.
  - intros ([table|] & Hp & Hd); unfold page_rows in Hd; [|destruct Hd].
    apply in_map_iff in Hd as (row & <- & Hr).
    apply filter_In in Hr as [Hr Hl].
    apply In_tl_nth_error in Hr as [i Hi].
    apply Nat.leb_le in Hl. exists row. eauto 6.
  - intros (row & (table & i & Hp & Hi) & Hl & ->).
    exists (Some table). split; [exact Hp|]. unfold page_rows.
    apply in_map, filter_In. split.
    + apply In_tl_nth_error. eauto.
    + now apply Nat.leb_le.
Qed.

End ExtractFacts.

(** ** The frame *)

Module FrameFacts.

Lemma mapM_map_Ok {A B C : Type} (g : A -> B) (f : B -> result C)
    (l : list A) (l' : list C) :
  mapM f (map g l) = Ok l' ->
  Forall2 (fun a c => f (g a) = Ok c) l l'.
Proof.
  revert l'. induction l as [|a l IH]; intros l' H; simpl in H.
  - injection H as <-. constructor.
  - destruct (f (g a)) as [c|e] eqn:E; simpl in H; [|discriminate].
    destruct (mapM f (map g l)) as [cs|e] eqn:M; simpl in H; [|discriminate].
    injection H as <-. constructor; auto.
Qed.

Lemma mapM_Forall2 {A B : Type} (f : A -> result B)
    (l : list A) (l' : list B) :
  Forall2 (fun a b => f a = Ok b) l l' -> mapM f l = Ok l'.
Proof.
  induction 1 as [|a b l l' H _ IH]; simpl; [reflexivity|].
  now rewrite H, IH.
Qed.

(** The frame built from the columns is the list of the normalised
    rows. *)
Lemma frame_normalize (f : pyobj -> Datetime) (rows : list RowDict)
    (w d b : list pyfloat) :
  mapM clean_amount (map raw_Withdrawals rows) = Ok w ->
  mapM clean_amount (map raw_Deposits rows) = Ok d ->
  mapM clean_amount (map raw_Balance rows) = Ok b ->
  Forall2 (fun r t => normalize (f (raw_Date r)) r = Ok t) rows
    (frame rows (map f (map raw_Date rows)) w d b).
Proof.
  intros Hw Hd Hb.
  apply mapM_map_Ok in Hw, Hd, Hb.
  revert d b Hd Hb.
  induction Hw as [|r w0 rows w Hw0 _ IH]; intros d b Hd Hb.
  - constructor.
  - inversion Hd as [|? d0 ? d' Hd0 Hd']; subst.
    inversion Hb as [|? b0 ? b' Hb0 Hb']; subst.
    simpl. constructor; [|now apply IH].
    unfold normalize. now rewrite Hw0, Hd0, Hb0.
Qed.

Lemma Forall2_In_r {A B : Type} (R : A -> B -> Prop)
    (l : list A) (l' : list B) (b : B) :
  Forall2 R l l' -> In b l' -> exists a, In a l /\ R a b.
Proof.
  induction 1 as [|a0 b0 l l' H _ IH]; simpl; [tauto|].
  intros [<-|Hin].
  - eauto.
  - destruct (IH Hin) as (a & Ha & HR). eauto.
Qed.

Lemma Forall2_In_l {A B : Type} (R : A -> B -> Prop)
    (l : list A) (l' : list B) (a : A) :
  Forall2 R l l' -> In a l -> exists b, In b l' /\ R a b.
Proof.
  induction 1 as [|a0 b0 l l' H _ IH]; simpl; [tauto|].
  intros [<-|Hin].
  - eauto.
  - destruct (IH Hin) as (b & Hb & HR). eauto.
Qed.

End FrameFacts.

(** ** Dates and [sort_values] *)

Module SortFacts.

Lemma Timestamp_compare_le (x y : Timestamp) :
  Timestamp_compare x y <> Gt <->
  (year x < year y
   \/ year x = year y
      /\ (month_number (month x) < month_number (month y)
          \/ month_number (month x) = month_number (month y)
             /\ (day x < day y
                 \/ day x = day y /\ time x <= time y)))%Z.
Proof.
  unfold Timestamp_compare.
  destruct (Z.compare_spec (year x) (year y));
    destruct (Z.compare_spec (month_number (month x))
                (month_number (month y)));
    destruct (Z.compare_spec (day x) (day y));
    destruct (Z.compare_spec (time x) (time y));
    split; intros; try lia; try discriminate; try congruence.
Qed.

Lemma Timestamp_le_trans (x y z : Timestamp) :
  Timestamp_compare x y <> Gt -> Timestamp_compare y z <> Gt ->
  Timestamp_compare x z <> Gt.
Proof. rewrite !Timestamp_compare_le. lia. Qed.

Lemma Timestamp_le_total (x y : Timestamp) :
  Timestamp_compare x y = Gt -> Timestamp_compare y x <> Gt.
Proof.
  intros H. assert (N : ~ Timestamp_compare x y <> Gt) by tauto.
  rewrite Timestamp_compare_le in *. lia.
Qed.

Lemma date_le_Some (x y : Timestamp) :
  date_le (Some x) (Some y) = true <-> Timestamp_compare x y <> Gt.
Proof.
  simpl. destruct (Timestamp_compare x y); split; congruence.
Qed.

Lemma date_le_trans (a b c : Datetime) :
  date_le a b = true -> date_le b c = true -> date_le a c = true.
Proof.
  destruct a as [x|], b as [y|], c as [z|]; try (simpl; congruence).
  rewrite !date_le_Some. apply Timestamp_le_trans.
Qed.

Lemma date_le_total (a b : Datetime) :
  date_le a b = false -> date_le b a = true.
Proof.
  destruct a as [x|], b as [y|]; try (simpl; congruence).
  intros H. apply date_le_Some, Timestamp_le_total.
  simpl in H. destruct (Timestamp_compare x y); congruence.
Qed.

Lemma insert_by_date_perm (t : Transaction) (l : DataFrame) :
  Permutation (t :: l) (insert_by_date t l).
Proof.
  induction l as [|u l IH]; simpl; [reflexivity|].
  destruct (date_le (Date t) (Date u)); [reflexivity|].
  rewrite perm_swap. now constructor.
Qed.

Lemma sort_values_perm (l : DataFrame) : Permutation l (sort_values l).
Proof.
  induction l as [|t l IH]; simpl; [constructor|].
  rewrite <- insert_by_date_perm. now constructor.
Qed.

Lemma insert_by_date_sorted (t : Transaction) (l : DataFrame) :
  StronglySorted date_ordered l ->
  StronglySorted date_ordered (insert_by_date t l).
Proof.
  induction 1 as [|u l Hs IH Hu]; simpl.
  - repeat constructor.
  - destruct (date_le (Date t) (Date u)) eqn:E.
    + constructor; [now constructor|].
      constructor; [exact E|].
      eapply Forall_impl; [|exact Hu].
      intros v Hv. eapply date_le_trans; eauto.
    + constructor; [exact IH|].
      eapply Permutation_Forall; [apply insert_by_date_perm|].
      constructor; [|exact Hu]. now apply date_le_total.
Qed.

Lemma sort_values_sorted (l : DataFrame) :
  StronglySorted date_ordered (sort_values l).
Proof.
  induction l as [|t l IH]; simpl; [constructor|].
  now apply insert_by_date_sorted.
Qed.

(** In a frame ordered by [date_le] the records with a date come first,
    in non-decreasing order, and the [NaT] records come after them. *)
Lemma sorted_split (l : DataFrame) :
  StronglySorted date_ordered l ->
  l = filter known_date l ++ filter (fun t => negb (known_date t)) l
  /\ StronglySorted date_nondecreasing (filter known_date l).
Proof.
  induction 1 as [|t l Hs [IH1 IH2] Ht]; [split; constructor|].
  cbn [filter]. destruct (known_date t) eqn:K; cbn [negb].
  - split; [simpl; now rewrite <- IH1|].
    constructor; [exact IH2|].
    apply Forall_forall. intros u Hu. apply filter_In in Hu as [Hu Ku].
    rewrite Forall_forall in Ht. specialize (Ht u Hu).
    unfold date_ordered in Ht. unfold date_nondecreasing, known_date in *.
    destruct (Date t) as [x|]; [|discriminate].
    destruct (Date u) as [y|]; [|discriminate].
    now apply date_le_Some.
  - assert (N : filter known_date l = []).
    { rewrite <- (filter_false l). apply filter_ext_in. intros u Hu.
      rewrite Forall_forall in Ht. specialize (Ht u Hu).
      unfold date_ordered in Ht. unfold known_date in *.
      destruct (Date t); [discriminate|].
      destruct (Date u); [discriminate|reflexivity]. }
    rewrite N in *. simpl in *. split; [now rewrite <- IH1|constructor].
Qed.

End SortFacts.

(** ** The report *)

Lemma normalize_inv (date : Datetime) (d : RowDict) (t : Transaction) :
  normalize date d = Ok t ->
  Date t = date
  /\ Particulars t = raw_Particulars d
  /\ clean_amount (raw_Withdrawals d) = Ok (Withdrawals t)
  /\ clean_amount (raw_Deposits d) = Ok (Deposits t)
  /\ clean_amount (raw_Balance d) = Ok (Balance t).
Proof.
  unfold normalize. intros H.
  destruct (clean_amount (raw_Withdrawals d)) as [w|e]; [|discriminate].
  destruct (clean_amount (raw_Deposits d)) as [d'|e]; [|discriminate].
  destruct (clean_amount (raw_Balance d)) as [b|e]; [|discriminate].
  simpl in H. injection H as <-. simpl. auto.
Qed.

Section ReportFacts.
Variable to_datetime : list pyobj -> pyobj -> Datetime.

Lemma report_inv (rows : list RowDict) (r : Report) :
  report to_datetime rows = Ok r ->
  exists ts,
    Forall2 (transaction_of to_datetime (map raw_Date rows)) rows ts
    /\ df r = sort_values ts
    /\ total_debit r = Series_sum (map Withdrawals (df r))
    /\ total_credit r = Series_sum (map Deposits (df r))
    /\ net_cash r = fsub (total_credit r) (total_debit r)
    /\ Month r = map (fun t => strftime_B_Y (Date t)) (df r)
    /\ monthly r =
         groupby_sum (dec 0, dec 0) nanadd2
           (combine (Month r)
              (map (fun t => (Withdrawals t, Deposits t)) (df r)))
    /\ Category r = map (fun t => categorize (Particulars t)) (df r)
    /\ category_summary r =
         groupby_sum (dec 0) nanadd
           (combine (map Some (Category r))
              (map Withdrawals (df r))).
Proof.
  unfold report. intros H.
  destruct (mapM clean_amount (map raw_Withdrawals rows)) as [w|e] eqn:Hw;
    [|discriminate].
  destruct (mapM clean_amount (map raw_Deposits rows)) as [d|e] eqn:Hd;
    [|discriminate].
  destruct (mapM clean_amount (map raw_Balance rows)) as [b|e] eqn:Hb;
    [|discriminate].
  cbn [bind] in H. injection H as <-. cbn -[sort_values groupby_sum].
  eexists. split; [|repeat split].
  apply (FrameFacts.frame_normalize
           (to_datetime (map raw_Date rows)) rows w d b Hw Hd Hb).
Qed.

Lemma mapM_Ok_iff {A B : Type} (f : A -> result B) (l : list A) :
  (exists l', mapM f l = Ok l') <-> Forall (fun a => exists b, f a = Ok b) l.
Proof.
  induction l as [|a l IH]; simpl.
  - split; [constructor|]. intros _. now exists [].
  - split.
    + intros [l' H]. destruct (f a) as [b|e] eqn:E; [|discriminate].
      destruct (mapM f l) as [bs|e] eqn:M; [|discriminate].
      constructor; [now exists b|]. apply IH. now exists bs.
    + intros H. inversion H as [|? ? [b Hb] Hl]; subst.
      apply IH in Hl as [bs Hbs]. rewrite Hb, Hbs. simpl. eauto.
Qed.

(** [report] returns exactly when every amount cell of every row is
    accepted by [clean_amount]; otherwise the [ValueError] of the cell
    aborts it. *)
Lemma report_returns_iff (rows : list RowDict) :
  (exists r, report to_datetime rows = Ok r) <-> Forall amounts_parse rows.
Proof.
  split.
  - intros [r H]. apply report_inv in H as (ts & F & _).
    apply Forall_forall. intros d Hd.
    destruct (FrameFacts.Forall2_In_l _ _ _ _ F Hd) as (t & _ & Ht).
    apply normalize_inv in Ht as (_ & _ & Hw & Hc & Hb).
    unfold amounts_parse. eauto 6.
  - intros H. unfold report.
    assert (M : forall (g : RowDict -> pyobj),
              (forall d, amounts_parse d -> exists v, clean_amount (g d) = Ok v) ->
              exists l, mapM clean_amount (map g rows) = Ok l).
    { intros g Hg. apply mapM_Ok_iff. apply Forall_map.
      eapply Forall_impl; [|exact H]. exact Hg. }
    destruct (M raw_Withdrawals) as [ws ->].
    { intros d (w & c & b & Hw & _). eauto. }
    destruct (M raw_Deposits) as [cs ->].
    { intros d (w & c & b & _ & Hc & _). eauto. }
    destruct (M raw_Balance) as [bs ->].
    { intros d (w & c & b & _ & _ & Hb). eauto. }
    simpl. eauto.
Qed.

Lemma report_raises (rows : list RowDict) :
  ~ Forall amounts_parse rows -> report to_datetime rows = Raise ValueError.
Proof.
  intros H. destruct (report to_datetime rows) as [r|[]] eqn:R;
    [|reflexivity].
  destruct H. apply report_returns_iff. eauto.
Qed.

(** The date reader matters only through the dates it gives to the
    cells of the column. *)
Lemma report_ext (to_datetime' : list pyobj -> pyobj -> Datetime)
    (rows : list RowDict) :
  map (to_datetime (map raw_Date rows)) (map raw_Date rows)
  = map (to_datetime' (map raw_Date rows)) (map raw_Date rows) ->
  report to_datetime rows = report to_datetime' rows.
Proof. intros H. unfold report. now rewrite H. Qed.

Lemma main_ext (to_datetime' : list pyobj -> pyobj -> Datetime)
    (pdf : list Page) :
  map (to_datetime (map raw_Date (extract pdf))) (map raw_Date (extract pdf))
  = map (to_datetime' (map raw_Date (extract pdf)))
      (map raw_Date (extract pdf)) ->
  main to_datetime pdf = main to_datetime' pdf.
Proof.
  intros H. unfold main.
  destruct (extract pdf) as [|d l]; [reflexivity|].
  now rewrite (report_ext to_datetime' (d :: l) H).
Qed.

End ReportFacts.

(** Every record of a generated report is the normalised form of a data
    row with at least nine cells. *)
Lemma main_record_source
    (to_datetime : list pyobj -> pyobj -> Datetime)
    (pdf : list Page) (r : Report) (t : Transaction) :
  main to_datetime pdf = Generated r -> In t (df r) ->
  exists row,
    is_data_row pdf row /\ 9 <= length row
    /\ transaction_of to_datetime (map raw_Date (extract pdf))
         (row_dict row) t.
Proof.
  intros H Hin. unfold main in H.
  destruct (extract pdf) as [|d0 l] eqn:E; [discriminate|].
  destruct (report to_datetime (d0 :: l)) as [r'|e] eqn:R; [|discriminate].
  injection H as ->.
  apply report_inv in R as (ts & F & Hdf & _).
  rewrite Hdf in Hin.
  apply (Permutation_in _ (Permutation_sym (SortFacts.sort_values_perm ts)))
    in Hin.
  destruct (FrameFacts.Forall2_In_r _ _ _ _ F Hin) as (d & Hd & Ht).
  rewrite <- E in Hd.
  apply ExtractFacts.In_extract in Hd as (row & Hr & Hl & ->).
  exists row. auto.
Qed.

(** C8. The extraction loop takes, from every table of every page, the
    rows after the first that have at least nine cells, and nothing else;
    shorter rows are passed over without any error, and every record of the
    report comes from such a row. *)
Theorem extract_spec :
  (forall pdf, extract pdf = flat_map page_rows pdf)
  /\ (forall pdf d,
        In d (extract pdf) <->
        exists row, is_data_row pdf row /\ 9 <= length row
                    /\ d = row_dict row)
  /\ (forall to_datetime pdf,
        (forall row, is_data_row pdf row -> length row < 9) ->
        extract pdf = [] /\ main to_datetime pdf = NoData)
  /\ (forall to_datetime pdf r t,
        main to_datetime pdf = Generated r -> In t (df r) ->
        exists row,
          is_data_row pdf row /\ 9 <= length row
          /\ transaction_of to_datetime (map raw_Date (extract pdf))
               (row_dict row) t).
Proof.
  split; [apply ExtractFacts.extract_eq|].
  split; [apply ExtractFacts.In_extract|].
  split.
  - intros to_datetime pdf H.
    assert (E : extract pdf = []).
    { destruct (extract pdf) as [|d l] eqn:E; [reflexivity|].
      assert (Hd : In d (extract pdf)) by (rewrite E; now left).
      apply ExtractFacts.In_extract in Hd as (row & Hr & Hl & _).
      specialize (H row Hr). lia. }
    split; [exact E|]. unfold main. now rewrite E.
  - apply main_record_source.
Qed.

(** C9. After [sort_values] the frame holds exactly the normalised
    records, none dropped: first those with a date, in non-decreasing date
    order, then those whose date could not be read. *)
Theorem sort_values_spec
    (to_datetime : list pyobj -> pyobj -> Datetime)
    (rows : list RowDict) (r : Report) :
  report to_datetime rows = Ok r ->
  exists ts,
    Forall2 (transaction_of to_datetime (map raw_Date rows)) rows ts
    /\ Permutation ts (df r)
    /\ df r = filter known_date (df r)
              ++ filter (fun t => negb (known_date t)) (df r)
    /\ StronglySorted date_nondecreasing (filter known_date (df r)).
Proof.
  intros H. apply report_inv in H as (ts & F & Hdf & _).
  exists ts. split; [exact F|]. rewrite Hdf.
  split; [apply SortFacts.sort_values_perm|].
  apply SortFacts.sorted_split, SortFacts.sort_values_sorted.
Qed.

Lemma sort_values_spec_witness :
  exists r,
    report DayFirst.to_datetime (extract undated_pdf) = Ok r
    /\ map Date (df r)
       = [Some (mkTimestamp 2023 February 1 0); None]
    /\ exists ts,
         Forall2 (transaction_of DayFirst.to_datetime
                    (map raw_Date (extract undated_pdf)))
           (extract undated_pdf) ts
         /\ Permutation ts (df r)
         /\ df r = filter known_date (df r)
                   ++ filter (fun t => negb (known_date t)) (df r)
         /\ StronglySorted date_nondecreasing (filter known_date (df r)).
Proof.
  eexists. split; [vm_compute; reflexivity|].
  split; [vm_compute; reflexivity|].
  apply (sort_values_spec DayFirst.to_datetime (extract undated_pdf)).
  vm_compute. reflexivity.
Defined.

(** ** [groupby] *)

Module GroupFacts.

Lemma compare_refl (a : string) : String.compare a a = Eq.
Proof.
  induction a as [|c a IH]; simpl; [reflexivity|].
  unfold Ascii.compare. now rewrite N.compare_refl.
Qed.

Lemma compare_lt_trans (a b c : string) :
  String.compare a b = Lt -> String.compare b c = Lt ->
  String.compare a c = Lt.
Proof.
  revert b c. induction a as [|x a IH]; intros [|y b] [|z c]; simpl;
    try congruence.
  unfold Ascii.compare.
  destruct (N.compare_spec (N_of_ascii x) (N_of_ascii y)) as [E1|L1|G1];
    destruct (N.compare_spec (N_of_ascii y) (N_of_ascii z)) as [E2|L2|G2];
    destruct (N.compare_spec (N_of_ascii x) (N_of_ascii z)) as [E3|L3|G3];
    try congruence; try lia.
  apply IH.
Qed.

Lemma compare_lt_neq (a b : string) : String.compare a b = Lt -> a <> b.
Proof. intros H ->. rewrite compare_refl in H. discriminate. Qed.

Lemma compare_gt_lt (a b : string) :
  String.compare a b = Gt -> String.compare b a = Lt.
Proof. intros H. rewrite String.compare_antisym, H. reflexivity. Qed.

Section Generic.
Context {V : Type} (vzero : V) (vadd : V -> V -> V).

Lemma upsert_keys (k : string) (v : V) (g : list (string * V)) (k' : string) :
  In k' (map fst (upsert vzero vadd k v g)) <-> k' = k \/ In k' (map fst g).
Proof.
  induction g as [|[k1 v1] g IH]; simpl; [intuition congruence|].
  destruct (String.compare k k1) eqn:C; simpl.
  - apply String.compare_eq_iff in C. subst k1. intuition congruence.
  - intuition congruence.
  - rewrite IH. intuition congruence.
Qed.

(** Below the first key of an ascending list there is no key. *)
Lemma below_not_in (k : string) (g : list (string * V)) :
  Forall (fun e => String.compare k (fst e) = Lt) g ->
  forall v, ~ In (k, v) g.
Proof.
  intros H v Hin. rewrite Forall_forall in H.
  apply (compare_lt_neq k k); [|reflexivity]. exact (H _ Hin).
Qed.

Lemma upsert_ascending (k : string) (v : V) (g : list (string * V)) :
  keys_ascending g -> keys_ascending (upsert vzero vadd k v g).
Proof.
  unfold keys_ascending.
  induction 1 as [|[k1 v1] g Hs IH Hk]; simpl.
  - repeat constructor.
  - destruct (String.compare k k1) eqn:C.
    + constructor; assumption.
    + constructor; [now constructor|].
      constructor; [exact C|].
      eapply Forall_impl; [|exact Hk].
      intros e He. eapply compare_lt_trans; eauto.
    + constructor; [exact IH|].
      apply Forall_forall. intros [k2 v2] Hin.
      assert (Hk2 : In k2 (map fst (upsert vzero vadd k v g)))
        by (apply in_map_iff; exists (k2, v2); auto).
      apply upsert_keys in Hk2 as [->|Hk2]; simpl.
      * now apply compare_gt_lt.
      * apply in_map_iff in Hk2 as ([k3 v3] & E & Hin3). simpl in E. subst k3.
        rewrite Forall_forall in Hk. exact (Hk _ Hin3).
Qed.

(** What [upsert] leaves in an ascending list: the other groups as they
    were, and the group of [k] with [v] added to its sum. *)
Lemma upsert_In (k : string) (v : V) (g : list (string * V))
    (k' : string) (v' : V) :
  keys_ascending g ->
  In (k', v') (upsert vzero vadd k v g) <->
  (k' <> k /\ In (k', v') g)
  \/ (k' = k
      /\ ((exists u, In (k, u) g /\ v' = vadd u v)
          \/ ((forall u, ~ In (k, u) g) /\ v' = vadd vzero v))).
Proof.
  unfold keys_ascending.
  induction 1 as [|[k1 v1] g Hs IH Hk]; simpl.
  - split.
    + intros [E|[]]. injection E as <- <-. right. split; [reflexivity|].
      right. split; [tauto|reflexivity].
    + intros [[_ []]|[-> [(u & [] & _)|[_ ->]]]]. now left.
  - destruct (String.compare k k1) eqn:C.
    + apply String.compare_eq_iff in C. subst k1.
      pose proof (below_not_in k g Hk) as Hn. simpl. split.
      * intros [E|Hin].
        -- injection E as <- <-. right. split; [reflexivity|].
           left. exists v1. auto.
        -- left. split; [|auto]. intros ->. exact (Hn _ Hin).
      * intros [[Hne [E|Hin]]|[-> [(u & [E|Hin] & ->)|[Hno _]]]].
        -- injection E as E _. congruence.
        -- now right.
        -- injection E as <-. now left.
        -- destruct (Hn _ Hin).
        -- destruct (Hno v1). now left.
    + assert (Hall : Forall (fun e => String.compare k (fst e) = Lt)
                       ((k1, v1) :: g)).
      { constructor; [exact C|]. eapply Forall_impl; [|exact Hk].
        intros e He. eapply compare_lt_trans; eauto. }
      pose proof (below_not_in k _ Hall) as Hn. simpl in Hn. simpl. split.
      * intros [E|Hin].
        -- injection E as <- <-. right. split; [reflexivity|]. right.
           split; [exact Hn|reflexivity].
        -- left. split; [|exact Hin]. intros ->. exact (Hn _ Hin).
      * intros [[Hne Hin]|[-> [(u & Hin & _)|[_ ->]]]].
        -- now right.
        -- destruct (Hn _ Hin).
        -- now left.
    + assert (Hne1 : k1 <> k).
      { apply compare_gt_lt in C. now apply compare_lt_neq. }
      simpl. rewrite IH. split.
      * intros [E|[[Hne Hin]|[-> [(u & Hin & ->)|[Hno ->]]]]].
        -- injection E as <- <-. left. auto.
        -- left. auto.
        -- right. split; [reflexivity|]. left. exists u. auto.
        -- right. split; [reflexivity|]. right. split; [|reflexivity].
           intros u [E|Hin]; [congruence|]. exact (Hno _ Hin).
      * intros [[Hne [E|Hin]]|[-> [(u & [E|Hin] & ->)|[Hno ->]]]].
        -- now left.
        -- right. left. auto.
        -- congruence.
        -- right. right. split; [reflexivity|]. left. exists u. auto.
        -- right. right. split; [reflexivity|]. right. split; [|reflexivity].
           intros u Hin. apply (Hno u). now right.
Qed.

Lemma groupby_sum_snoc (rows : list (option string * V))
    (row : option string * V) :
  groupby_sum vzero vadd (rows ++ [row])
  = groupby_step vzero vadd (groupby_sum vzero vadd rows) row.
Proof. unfold groupby_sum. now rewrite fold_left_app. Qed.

Lemma group_of_app (k : string) (r1 r2 : list (option string * V)) :
  group_of k (r1 ++ r2) = group_of k r1 ++ group_of k r2.
Proof. unfold group_of. now rewrite filter_app, map_app. Qed.

Lemma fold_left_snoc (l : list V) (x z : V) :
  fold_left vadd (l ++ [x]) z = vadd (fold_left vadd l z) x.
Proof. now rewrite fold_left_app. Qed.

(** [groupby_sum]: ascending distinct keys, one group for each key that
    occurs in the rows, holding the sum of the rows of that key. *)
Lemma groupby_sum_spec (rows : list (option string * V)) :
  keys_ascending (groupby_sum vzero vadd rows)
  /\ forall k v,
       In (k, v) (groupby_sum vzero vadd rows) <->
       group_of k rows <> []
       /\ v = fold_left vadd (group_of k rows) vzero.
Proof.
  induction rows as [|[key x] rows [IHs IH]] using rev_ind.
  - split; [constructor|]. intros k v. simpl. tauto.
  - rewrite groupby_sum_snoc. unfold groupby_step. cbn [fst snd].
    destruct key as [k0|].
    + split; [now apply upsert_ascending|].
      intros k v. rewrite (upsert_In k0 x _ k v IHs), group_of_app.
      unfold group_of at 2 4. cbn [filter fst].
      destruct (String.eqb_spec k0 k) as [->|Hne]; cbn [map snd].
      * rewrite fold_left_snoc. split.
        -- intros [[Hne _]|[_ [(u & Hu & ->)|[Hno ->]]]]; [congruence| |].
           ++ apply IH in Hu as [_ ->].
              split; [now destruct (group_of k rows)|reflexivity].
           ++ destruct (group_of k rows) as [|y l] eqn:G.
              ** split; [discriminate|reflexivity].
              ** exfalso. apply (Hno (fold_left vadd (y :: l) vzero)).
                 apply IH. rewrite G. split; [discriminate|reflexivity].
        -- intros [_ ->]. right. split; [reflexivity|].
           destruct (group_of k rows) as [|y l] eqn:G.
           ++ right. split; [|reflexivity].
              intros u Hu. apply IH in Hu as [Hu _]. now rewrite G in Hu.
           ++ left. exists (fold_left vadd (y :: l) vzero).
              split; [|reflexivity].
              apply IH. rewrite G. split; [discriminate|reflexivity].
      * rewrite app_nil_r, <- IH. split.
        -- intros [[_ H]|[E _]]; [exact H|congruence].
        -- intros H. left. split; [congruence|exact H].
    + split; [exact IHs|]. intros k v.
      rewrite group_of_app. unfold group_of at 2 4. cbn [filter fst map].
      rewrite app_nil_r. apply IH.
Qed.

End Generic.
End GroupFacts.

(** ** The monthly summary *)

Module MonthlyFacts.
Import GroupFacts.

Lemma combine_map {A B C : Type} (f : A -> B) (g : A -> C) (l : list A) :
  combine (map f l) (map g l) = map (fun a => (f a, g a)) l.
Proof. induction l; simpl; congruence. Qed.


Lemma group_of_frame (k : string) (l : DataFrame) :
  group_of k (map (fun t => (label t, amounts t)) l)
  = map amounts (filter (in_month k) l).
Proof.
  unfold group_of. induction l as [|t l IH]; simpl; [reflexivity|].
  unfold in_month at 1, label at 1.
  destruct (strftime_B_Y (Date t)) as [k'|]; [|exact IH].
  destruct (k' =? k); simpl; congruence.
Qed.



End MonthlyFacts.

Section Monthly.
Variable to_datetime : list pyobj -> pyobj -> Datetime.

Lemma monthly_eq (rows : list RowDict) (r : Report) :
  report to_datetime rows = Ok r ->
  monthly r
  = groupby_sum (dec 0, dec 0) nanadd2
      (map (fun t => (label t, amounts t)) (df r)).
Proof.
  intros H. apply report_inv in H as (ts & _ & _ & _ & _ & _ & HM & Hm & _).
  rewrite Hm, HM. now rewrite MonthlyFacts.combine_map.
Qed.

End Monthly.




(** ** C6: what the monthly entries sum *)

Module RegroupFacts.
Import GroupFacts.

Lemma keys_ascending_NoDup {V : Type} (g : list (string * V)) :
  keys_ascending g -> NoDup (map fst g).
Proof.
  unfold keys_ascending. induction 1 as [|e g Hs IH He]; simpl.
  - constructor.
  - constructor; [|exact IH]. intros Hin.
    apply in_map_iff in Hin as (e' & E & Hin).
    rewrite Forall_forall in He. specialize (He e' Hin).
    rewrite E in He. now apply compare_lt_neq in He.
Qed.

Section Partition.
Context {A : Type} (sel : string -> A -> bool).
Hypothesis sel_one : forall k k' a, sel k a = true -> sel k' a = true -> k = k'.

Lemma filter_none (l : list A) : filter (fun _ => false) l = [].
Proof. induction l; simpl; auto. Qed.

Lemma filter_split (p q : A -> bool) (l : list A) :
  (forall a, p a = true -> q a = true -> False) ->
  Permutation (filter p l ++ filter q l) (filter (fun a => p a || q a) l).
Proof.
  intros D. induction l as [|a l IH]; simpl; [constructor|].
  destruct (p a) eqn:Pa, (q a) eqn:Qa; simpl.
  - destruct (D a Pa Qa).
  - now constructor.
  - apply Permutation_sym, Permutation_cons_app, Permutation_sym, IH.
  - exact IH.
Qed.

(** The groups selected by distinct keys hold, together, each selected
    element once. *)
Lemma groups_partition (ks : list string) (l : list A) :
  NoDup ks ->
  Permutation (concat (map (fun k => filter (sel k) l) ks))
    (filter (fun a => existsb (fun k => sel k a) ks) l).
Proof.
  induction 1 as [|k ks Hk _ IH]; cbn [map concat existsb].
  - now rewrite filter_none.
  - rewrite <- filter_split.
    + now apply Permutation_app_head.
    + intros a Sa Ea. apply existsb_exists in Ea as (k' & Hin & Sa').
      rewrite (sel_one k k' a Sa Sa') in Hk. exact (Hk Hin).
Qed.

End Partition.

Lemma filter_all {A : Type} (p : A -> bool) (l : list A) :
  (forall a, In a l -> p a = true) -> filter p l = l.
Proof.
  induction l as [|a l IH]; simpl; intros H; [reflexivity|].
  rewrite (H a (or_introl eq_refl)). f_equal. apply IH. auto.
Qed.



Lemma map_entries_keys {V B : Type} (f : string -> B) (g : list (string * V)) :
  map (fun e => f (fst e)) g = map f (map fst g).
Proof. now rewrite map_map. Qed.

Section Monthly.
Variable to_datetime : list pyobj -> pyobj -> Datetime.




End Monthly.

End RegroupFacts.




(** ** C2: the sign of an amount *)

Module SignFacts.
Import PyStr PyStrFacts PyFloat.

Lemma isspace_c_isspace (c : ascii) :
  isspace_c c = true -> isspace c = true.
Proof.
  destruct c as [[] [] [] [] [] [] [] []]; vm_compute; congruence.
Qed.

Lemma lstrip_by_id ws (s : string) : head_not ws s -> lstrip_by ws s = s.
Proof. destruct s as [|c s]; simpl; [reflexivity|]. now intros ->. Qed.

Lemma head_not_isspace_c (s : string) :
  head_not isspace s -> head_not isspace_c s.
Proof.
  destruct s as [|c s]; simpl; [auto|]. intros H.
  destruct (isspace_c c) eqn:E; [|reflexivity].
  apply isspace_c_isspace in E. congruence.
Qed.

(** The underscore pass keeps the first character. *)
Lemma without_underscores_head (s t : string) :
  without_underscores s = Some t ->
  match s, t with
  | EmptyString, EmptyString => True
  | String c _, String c' _ => c = c'
  | _, _ => False
  end.
Proof.
  unfold without_underscores.
  destruct (contains "_" s).
  - destruct s as [|c s]; simpl.
    + intros [= <-]. exact I.
    + destruct (Ascii.eqb c zero); [discriminate|].
      destruct (is_underscore c).
      * change (isdigit zero) with false. discriminate.
      * change (is_underscore zero) with false. cbn [andb].
        destruct (underscores_loop c s); simpl; [|discriminate].
        now intros [= <-].
  - intros [= <-]. destruct s; auto.
Qed.

Lemma strip_by_head ws (P : ascii -> bool) (s : string) :
  head_not ws s -> head_not P s -> head_not P (strip_by ws s).
Proof.
  intros Hw HP. unfold strip_by. rewrite (lstrip_by_id ws s Hw).
  destruct (rstrip_by_split ws s) as (r & E & _).
  apply head_not_prefix with (b := r). now rewrite <- E.
Qed.

Lemma take_sign_unsigned (u : string) :
  head_not is_minus u -> fst (take_sign u) = false.
Proof.
  destruct u as [|c u]; [reflexivity|]. unfold head_not, is_minus.
  intros H. apply Ascii.eqb_neq in H.
  unfold take_sign.
  destruct c as [[] [] [] [] [] [] [] []]; try reflexivity.
  now destruct H.
Qed.

Lemma decimal_nonnegative (m : N) (e : Z) : nonnegative (decimal false m e).
Proof.
  unfold nonnegative, decimal, dec, fle. cbv zeta.
  set (q := (inject_Z (Z.of_N m) * pow10 e)%Q).
  assert (Hq : (0 <= q)%Q).
  { apply Qmult_le_0_compat.
    - change 0%Q with (inject_Z 0). rewrite <- Zle_Qle. lia.
    - unfold pow10. destruct e as [|p|p].
      + discriminate.
      + change 0%Q with (inject_Z 0). rewrite <- Zle_Qle.
        apply Z.pow_nonneg. lia.
      + discriminate. }
  assert (L : (Q2Qc 0 <= Q2Qc q)%Qc).
  { unfold Qcle, Q2Qc. cbn [this]. now rewrite !Qred_correct. }
  pose proof (proj1 (Qcle_alt _ _) L) as C.
  destruct (Q2Qc 0 ?= Q2Qc q)%Qc; congruence.
Qed.

Lemma string_to_double_nonnegative (u rest : string) (v : pyfloat) :
  head_not is_minus u ->
  string_to_double u = Some (v, rest) ->
  isnan v = false -> nonnegative v.
Proof.
  intros Hu H Hn. apply take_sign_unsigned in Hu.
  unfold string_to_double, strtod, parse_inf_or_nan in H.
  destruct (take_sign u) as [neg s1]. simpl in Hu. subst neg.
  destruct (span_digits s1) as [ip s2].
  destruct (match s2 with
            | String "." s' => span_digits s'
            | _ => (EmptyString, s2)
            end) as [fp s3].
  destruct (ip ++ fp)%string as [|c ds].
  - destruct (case_insensitive_match s1 "inf") as [s4|].
    + destruct (case_insensitive_match s4 "inity");
        injection H as <- _; reflexivity.
    + destruct (case_insensitive_match s1 "nan"); [|discriminate].
      injection H as <- _. discriminate.
  - destruct (take_exponent s3) as [ex s4].
    injection H as <- _. apply decimal_nonnegative.
Qed.

Lemma float_nonnegative (t : string) (v : pyfloat) :
  head_not isspace t -> head_not is_minus t ->
  float t = Ok v -> isnan v = false -> nonnegative v.
Proof.
  intros Hs Hm H Hn. unfold float in H.
  destruct (without_underscores t) as [t1|] eqn:U; [|discriminate].
  apply without_underscores_head in U.
  assert (Hs1 : head_not isspace_c t1).
  { apply head_not_isspace_c.
    destruct t as [|c t], t1 as [|c1 t1]; simpl in *; try tauto.
    now subst. }
  assert (Hm1 : head_not is_minus t1).
  { destruct t as [|c t], t1 as [|c1 t1]; simpl in *; try tauto.
    now subst. }
  pose proof (strip_by_head isspace_c is_minus t1 Hs1 Hm1) as Hu.
  destruct (strip_by isspace_c t1) as [|c u]; [discriminate|].
  destruct (string_to_double (String c u)) as [[w rest]|] eqn:S;
    [|discriminate].
  destruct rest; [|discriminate]. injection H as ->.
  eapply string_to_double_nonnegative; eauto.
Qed.

Lemma cleaned_head (x : pyobj) : head_not isspace (cleaned x).
Proof.
  unfold cleaned, strip.
  destruct (strip_by_spec isspace (replace "," "" (str x)))
    as (l & r & _ & _ & _ & H & _).
  exact H.
Qed.

(** An unsigned cell gives a non-negative amount (or nan). *)
Lemma clean_amount_nonnegative (x : pyobj) (v : pyfloat) :
  clean_amount x = Ok v -> unsigned x -> isnan v = false -> nonnegative v.
Proof.
  intros H [W M] Hn. rewrite clean_amount_unfold, W in H.
  destruct (negb (cleaned x =? "") && negb (cleaned x =? "None")).
  - eapply float_nonnegative; eauto. apply cleaned_head.
  - injection H as <-. reflexivity.
Qed.

End SignFacts.

(** C2 (amended).  The withdrawal and the deposit of a record
    are [clean_amount] of cells 6 and 7 of its row: non-negative (or nan)
    when the cleaned cell is not wrapped in parentheses and does not begin
    with a minus sign, and the negation of the interior when it is wrapped
    in parentheses. *)
Theorem amounts_sign
    (to_datetime : list pyobj -> pyobj -> Datetime)
    (pdf : list Page) (r : Report) (t : Transaction) :
  main to_datetime pdf = Generated r -> In t (df r) ->
  exists row,
    is_data_row pdf row /\ 9 <= length row
    /\ clean_amount (cell row 6) = Ok (Withdrawals t)
    /\ clean_amount (cell row 7) = Ok (Deposits t)
    /\ (unsigned (cell row 6) -> isnan (Withdrawals t) = false ->
        nonnegative (Withdrawals t))
    /\ (unsigned (cell row 7) -> isnan (Deposits t) = false ->
        nonnegative (Deposits t))
    /\ (forall u, cleaned (cell row 6) = ("(" ++ u ++ ")")%string ->
        exists v, PyFloat.float u = Ok v /\ Withdrawals t = fneg v)
    /\ (forall u, cleaned (cell row 7) = ("(" ++ u ++ ")")%string ->
        exists v, PyFloat.float u = Ok v /\ Deposits t = fneg v).
Proof.
  intros H Hin.
  destruct (main_record_source to_datetime pdf r t H Hin)
    as (row & Hr & Hl & Ht).
  apply normalize_inv in Ht as (_ & _ & Hw & Hd & _).
  cbn [row_dict raw_Withdrawals raw_Deposits] in Hw, Hd.
  assert (P : forall x v u, clean_amount x = Ok v ->
                cleaned x = ("(" ++ u ++ ")")%string ->
                exists w, PyFloat.float u = Ok w /\ v = fneg w).
  { intros x v u Hx E. rewrite (clean_amount_wrapped x u E) in Hx.
    destruct (PyFloat.float u) as [w|e]; [|discriminate].
    simpl in Hx. injection Hx as <-. now exists w. }
  exists row. repeat split; auto.
  - intros U N. now apply (SignFacts.clean_amount_nonnegative (cell row 6)).
  - intros U N. now apply (SignFacts.clean_amount_nonnegative (cell row 7)).
  - intros u E. exact (P _ _ _ Hw E).
  - intros u E. exact (P _ _ _ Hd E).
Qed.

Lemma amounts_sign_witness :
  exists r t,
    main DayFirst.to_datetime (scenario_pdf header) = Generated r
    /\ In t (df r)
    /\ exists row,
         is_data_row (scenario_pdf header) row /\ 9 <= length row
         /\ clean_amount (cell row 6) = Ok (Withdrawals t)
         /\ clean_amount (cell row 7) = Ok (Deposits t)
         /\ (unsigned (cell row 6) -> isnan (Withdrawals t) = false ->
             nonnegative (Withdrawals t))
         /\ (unsigned (cell row 7) -> isnan (Deposits t) = false ->
             nonnegative (Deposits t))
         /\ (forall u, cleaned (cell row 6) = ("(" ++ u ++ ")")%string ->
             exists v, PyFloat.float u = Ok v /\ Withdrawals t = fneg v)
         /\ (forall u, cleaned (cell row 7) = ("(" ++ u ++ ")")%string ->
             exists v, PyFloat.float u = Ok v /\ Deposits t = fneg v).
Proof.
  eexists. eexists.
  split; [vm_compute; reflexivity|].
  split; [right; left; reflexivity|].
  eapply (amounts_sign DayFirst.to_datetime (scenario_pdf header)).
  - vm_compute. reflexivity.
  - right. left. reflexivity.
Defined.

(** The claim C2 fails on the loan row of the sample statement: its
    withdrawal cell ["(5,000.00)"] becomes -5000.00. *)
Lemma nonnegative_amounts_counterexample :
  exists r t,
    main DayFirst.to_datetime (scenario_pdf header) = Generated r
    /\ In t (df r)
    /\ Withdrawals t = dec (-5000)
    /\ fle (dec 0) (Withdrawals t) = false.
Proof.
  eexists. eexists.
  split; [vm_compute; reflexivity|].
  split; [right; left; reflexivity|].
  split; [float_eq|reflexivity].
Qed.

(** ** C3: the sample statement *)

(** C3 (amended).  On the two sample rows, with their dates
    read day first as 1 and 5 February 2023, the report has two records,
    withdrawals [0, -5000.00], deposits [50000.00, 0], categories
    [Salary, Loan], one monthly entry "February 2023" with withdrawals
    -5000.00 and deposits 50000.00, and a net cash flow of 55000.00. *)
Theorem scenario_report
    (to_datetime : list pyobj -> pyobj -> Datetime) (header0 : RawRow) :
  let column := [PyStr "01/02/2023"; PyStr "05/02/2023"] in
  to_datetime column (PyStr "01/02/2023")
    = Some (mkTimestamp 2023 February 1 0) ->
  to_datetime column (PyStr "05/02/2023")
    = Some (mkTimestamp 2023 February 5 0) ->
  exists r,
    main to_datetime (scenario_pdf header0) = Generated r
    /\ length (df r) = 2
    /\ map Date (df r) = [Some (mkTimestamp 2023 February 1 0);
                          Some (mkTimestamp 2023 February 5 0)]
    /\ map Withdrawals (df r) = [dec 0; dec (-5000)]
    /\ map Deposits (df r) = [dec 50000; dec 0]
    /\ map Balance (df r) = [dec 50000; dec 45000]
    /\ Category r = ["Salary"; "Loan"]
    /\ monthly r = [("February 2023", (dec (-5000), dec 50000))]
    /\ total_debit r = dec (-5000)
    /\ total_credit r = dec 50000
    /\ net_cash r = dec 55000.
Proof.
  intros column H1 H5.
  assert (E : main to_datetime (scenario_pdf header0)
              = main DayFirst.to_datetime (scenario_pdf header0)).
  { apply main_ext.
    change (map raw_Date (extract (scenario_pdf header0))) with column.
    subst column. cbn [map]. now rewrite H1, H5. }
  rewrite E.
  eexists. split; [vm_compute; reflexivity|].
  repeat split; float_eq.
Qed.

Lemma scenario_report_witness :
  exists r,
    main DayFirst.to_datetime (scenario_pdf header) = Generated r
    /\ length (df r) = 2
    /\ map Date (df r) = [Some (mkTimestamp 2023 February 1 0);
                          Some (mkTimestamp 2023 February 5 0)]
    /\ map Withdrawals (df r) = [dec 0; dec (-5000)]
    /\ map Deposits (df r) = [dec 50000; dec 0]
    /\ map Balance (df r) = [dec 50000; dec 45000]
    /\ Category r = ["Salary"; "Loan"]
    /\ monthly r = [("February 2023", (dec (-5000), dec 50000))]
    /\ total_debit r = dec (-5000)
    /\ total_credit r = dec 50000
    /\ net_cash r = dec 55000.
Proof.
  apply (scenario_report DayFirst.to_datetime header); reflexivity.
Defined.

(** The claim C3 fails: the report of the sample rows does not have the
    withdrawals [0, 5000.00], nor the net cash flow 45000.00. *)
Lemma scenario_counterexample :
  ~ (exists r,
       main DayFirst.to_datetime (scenario_pdf header) = Generated r
       /\ map Withdrawals (df r) = [dec 0; dec 5000]
       /\ map Deposits (df r) = [dec 50000; dec 0]
       /\ Category r = ["Salary"; "Loan"]
       /\ In ("February 2023", (dec 5000, dec 50000)) (monthly r)
       /\ net_cash r = dec 45000).
Proof.
  intros (r & H & _ & _ & _ & _ & N).
  vm_compute in H. injection H as <-.
  vm_compute in N. discriminate N.
Qed.

(** ** Decimal texts *)

Module DecimalFacts.
Import PyStr PyStrFacts PyFloat.

Lemma plain_char_facts (c : ascii) :
  plain_char c = true ->
  isspace c = false /\ isspace_c c = false
  /\ Ascii.eqb c "_" = false /\ Ascii.eqb c "(" = false.
Proof.
  destruct c as [[] [] [] [] [] [] [] []]; vm_compute; intros H;
    repeat split; congruence.
Qed.

Lemma isdigit_facts (c : ascii) :
  isdigit c = true ->
  plain_char c = true /\ Ascii.eqb c "-" = false /\ Ascii.eqb c "+" = false
  /\ Ascii.eqb c "N" = false /\ Ascii.eqb c "." = false.
Proof.
  destruct c as [[] [] [] [] [] [] [] []]; vm_compute; intros H;
    repeat split; congruence.
Qed.

Lemma forall_chars_impl (P Q : ascii -> bool) (s : string) :
  (forall c, P c = true -> Q c = true) ->
  forall_chars P s = true -> forall_chars Q s = true.
Proof.
  intros PQ. induction s as [|c s IH]; simpl; [auto|].
  rewrite !andb_true_iff. intros [H1 H2]. auto.
Qed.

Lemma forall_chars_head (P X : ascii -> bool) (s : string) :
  (forall c, P c = true -> X c = false) ->
  forall_chars P s = true -> head_not X s.
Proof.
  intros PX. destruct s as [|c s]; simpl; [auto|].
  rewrite andb_true_iff. intros [H _]. auto.
Qed.

Lemma strip_by_id ws (s : string) :
  head_not ws s -> head_not ws (rev s) -> strip_by ws s = s.
Proof.
  intros H1 H2. unfold strip_by, rstrip_by.
  rewrite (SignFacts.lstrip_by_id ws s H1).
  rewrite (SignFacts.lstrip_by_id ws (rev s) H2).
  apply rev_involutive.
Qed.

Lemma strip_by_plain ws (s : string) :
  (forall c, plain_char c = true -> ws c = false) ->
  forall_chars plain_char s = true -> strip_by ws s = s.
Proof.
  intros W H. apply strip_by_id.
  - now apply (forall_chars_head plain_char).
  - apply (forall_chars_head plain_char); [exact W|].
    now rewrite forall_chars_rev.
Qed.

Lemma contains_char_false (c : ascii) (s : string) :
  forall_chars (fun a => negb (Ascii.eqb a c)) s = true ->
  contains (String c "") s = false.
Proof.
  induction s as [|a s IH]; [reflexivity|]. simpl forall_chars.
  rewrite andb_true_iff, negb_true_iff. intros [H1 H2].
  cbn [contains]. rewrite prefix_cons, (IH H2), Ascii.eqb_sym, H1.
  reflexivity.
Qed.

Lemma span_digits_app (ip rest : string) :
  all_digits ip -> head_not isdigit rest ->
  span_digits (ip ++ rest) = (ip, rest).
Proof.
  unfold all_digits. intros H R. induction ip as [|c ip IH]; simpl.
  - destruct rest as [|c rest]; [reflexivity|]. simpl in *. now rewrite R.
  - simpl in H. apply andb_true_iff in H as [H1 H2].
    now rewrite H1, (IH H2).
Qed.

Lemma span_digits_all (ip : string) :
  all_digits ip -> span_digits ip = (ip, "").
Proof.
  intros H. rewrite <- (append_nil_r ip) at 1.
  now apply span_digits_app.
Qed.

Lemma take_sign_digit (c : ascii) (s : string) :
  isdigit c = true -> take_sign (String c s) = (false, String c s).
Proof.
  destruct c as [[] [] [] [] [] [] [] []]; vm_compute; congruence.
Qed.

(** The value [m * 10^(-k)] is [m / 10^k]. *)
Lemma decimal_value (m : N) (k : nat) :
  decimal false m (0 - Z.of_nat k)
  = dec (inject_Z (Z.of_N m) / inject_Z (10 ^ Z.of_nat k))%Q.
Proof.
  unfold decimal, dec. cbv zeta. f_equal. apply Q2Qc_eq_iff.
  destruct k as [|k].
  - change (pow10 (0 - Z.of_nat 0)) with (inject_Z 1).
    change (inject_Z (10 ^ Z.of_nat 0)) with (inject_Z 1).
    unfold Qdiv. change (/ inject_Z 1)%Q with (inject_Z 1). reflexivity.
  - replace (0 - Z.of_nat (S k))%Z with (Zneg (Pos.of_succ_nat k)) by lia.
    replace (Z.of_nat (S k)) with (Zpos (Pos.of_succ_nat k)) by lia.
    cbn [pow10]. rewrite <- Pos2Z.inj_pow. reflexivity.
Qed.

Section Plain.
Variables ip fp : string.
Hypothesis ip_digits : all_digits ip.
Hypothesis fp_digits : all_digits fp.
Hypothesis ip_nonempty : ip <> "".

Lemma plain_text : forall_chars plain_char (ip ++ "." ++ fp) = true.
Proof.
  rewrite !forall_chars_append.
  rewrite (forall_chars_impl isdigit plain_char ip),
          (forall_chars_impl isdigit plain_char fp); auto;
    intros c Hc; now apply isdigit_facts in Hc.
Qed.

Lemma plain_integer : forall_chars plain_char ip = true.
Proof.
  apply (forall_chars_impl isdigit plain_char); auto.
  intros c Hc. now apply isdigit_facts in Hc.
Qed.

Lemma float_plain (t : string) (places : nat) :
  (t = (ip ++ "." ++ fp)%string /\ places = String.length fp
   \/ t = ip /\ fp = "" /\ places = 0) ->
  forall_chars plain_char t = true
  /\ float t = Ok (decimal_number (ip ++ fp) places).
Proof.
  intros Ht.
  assert (P : forall_chars plain_char t = true).
  { destruct Ht as [[-> _]|[-> _]]; [apply plain_text|apply plain_integer]. }
  split; [exact P|].
  unfold float, without_underscores.
  rewrite contains_char_false.
  2:{ apply (forall_chars_impl plain_char); [|exact P].
      intros c Hc. apply plain_char_facts in Hc as (_ & _ & -> & _).
      reflexivity. }
  rewrite strip_by_plain; [|intros c Hc; now apply plain_char_facts in Hc|exact P].
  destruct ip as [|c ip'] eqn:Eip; [congruence|]. rewrite <- Eip in *.
  assert (Hc : isdigit c = true).
  { unfold all_digits in ip_digits. rewrite Eip in ip_digits.
    simpl in ip_digits. now apply andb_true_iff in ip_digits as [-> _]. }
  assert (S : string_to_double t
              = Some (decimal_number (ip ++ fp) places, "")).
  { unfold string_to_double, strtod.
    assert (Hs : take_sign t = (false, t)).
    { destruct Ht as [[-> _]|[-> _]]; rewrite Eip; now apply take_sign_digit. }
    rewrite Hs. unfold decimal_number.
    destruct Ht as [[-> ->]|(-> & Hf & ->)].
    - rewrite (span_digits_app ip ("." ++ fp) ip_digits eq_refl).
      cbn [append]. rewrite (span_digits_all fp fp_digits).
      rewrite Eip. cbn [append]. cbn [take_exponent].
      now rewrite decimal_value.
    - rewrite (span_digits_all ip ip_digits).
      rewrite Eip. rewrite Hf. cbn [append]. rewrite append_nil_r.
      cbn [take_exponent String.length].
      now rewrite (decimal_value _ 0). }
  destruct t as [|c0 t0].
  - destruct Ht as [[E _]|[E _]]; rewrite Eip in E; discriminate.
  - now rewrite S.
Qed.

End Plain.

Lemma replace_append (c : ascii) (a b : string) :
  replace c "" (a ++ b) = (replace c "" a ++ replace c "" b)%string.
Proof.
  induction a as [|x a IH]; simpl; [reflexivity|].
  destruct (Ascii.eqb x c); simpl; congruence.
Qed.

Lemma wrapped_plain (t : string) :
  t <> "" -> forall_chars plain_char t = true -> wrapped t = false.
Proof.
  destruct t as [|c t]; [congruence|]. intros _ H. simpl in H.
  apply andb_true_iff in H as [H _].
  apply plain_char_facts in H as (_ & _ & _ & H).
  unfold wrapped, startswith. rewrite prefix_cons, Ascii.eqb_sym, H.
  reflexivity.
Qed.

(** A text of digits, with commas anywhere and at most one decimal point
    after the first digit, is read as the number it writes; in
    parentheses, as its negation. *)
Lemma clean_amount_plain_text (s ip fp t : string) (places : nat) :
  all_digits ip -> all_digits fp -> ip <> "" ->
  (t = (ip ++ "." ++ fp)%string /\ places = String.length fp
   \/ t = ip /\ fp = "" /\ places = 0) ->
  replace "," "" s = t ->
  clean_amount (PyStr s) = Ok (decimal_number (ip ++ fp) places)
  /\ clean_amount (PyStr ("(" ++ s ++ ")"))
     = Ok (fneg (decimal_number (ip ++ fp) places)).
Proof.
  intros Hi Hf Hn Ht Hs.
  destruct (float_plain ip fp Hi Hf Hn t places Ht) as [P F].
  assert (Th : exists c r, t = String c r /\ isdigit c = true).
  { destruct ip as [|c ip'] eqn:Eip; [congruence|].
    unfold all_digits in Hi. simpl in Hi.
    apply andb_true_iff in Hi as [Hc _].
    destruct Ht as [[-> _]|[-> _]]; simpl; eauto. }
  destruct Th as (c & r & Et & Hc).
  assert (C : cleaned (PyStr s) = t).
  { unfold cleaned, strip. cbn [str]. rewrite Hs.
    apply strip_by_plain; [|exact P].
    intros a Ha. now apply plain_char_facts in Ha. }
  split.
  - rewrite clean_amount_plain; rewrite ?C; auto.
    + apply wrapped_plain; [|exact P]. rewrite Et. discriminate.
    + rewrite Et. discriminate.
    + rewrite Et. intros E. injection E as -> _. discriminate Hc.
  - rewrite (clean_amount_wrapped _ t); [now rewrite F|].
    unfold cleaned, strip. cbn [str].
    rewrite !replace_append, Hs.
    change (replace "," "" "(") with "(".
    change (replace "," "" ")") with ")".
    apply strip_by_id.
    + reflexivity.
    + rewrite !rev_append. reflexivity.
Qed.

End DecimalFacts.

(** ** C1: [clean_amount] *)

(** C1. [clean_amount] removes every comma and the surrounding whitespace
    of its input; on the remaining text [t]: if [t] is ["(" ++ u ++ ")"] it
    parses [u] and returns the negation; if [t] is empty or ["None"] it
    returns 0.0; otherwise it returns [float(t)], which for a text of
    digits with a decimal point is the decimal number written.  In
    particular ["(1,234.50)"] gives -1234.50, ["1,234.50"] gives 1234.50,
    and [""] and ["None"] give 0.0. *)
Theorem clean_amount_spec :
  (forall s : string,
     let t := cleaned (PyStr s) in
     list_ascii_of_string (PyStr.replace "," "" s)
       = filter (fun a => negb (Ascii.eqb a ",")) (list_ascii_of_string s)
     /\ stripped_of PyStr.isspace (PyStr.replace "," "" s) t
     /\ (forall u, t = ("(" ++ u ++ ")")%string ->
         clean_amount (PyStr s) = (v <- PyFloat.float u ;; Ok (fneg v)))
     /\ (t = "" \/ t = "None" -> clean_amount (PyStr s) = Ok (dec 0))
     /\ ((forall u, t <> ("(" ++ u ++ ")")%string) ->
         t <> "" -> t <> "None" ->
         clean_amount (PyStr s) = PyFloat.float t))
  /\ (forall s ip fp : string,
        all_digits ip -> all_digits fp -> ip <> "" ->
        PyStr.replace "," "" s = (ip ++ "." ++ fp)%string ->
        clean_amount (PyStr s)
          = Ok (decimal_number (ip ++ fp) (String.length fp))
        /\ clean_amount (PyStr ("(" ++ s ++ ")"))
           = Ok (fneg (decimal_number (ip ++ fp) (String.length fp))))
  /\ (forall s ip : string,
        all_digits ip -> ip <> "" ->
        PyStr.replace "," "" s = ip ->
        clean_amount (PyStr s) = Ok (decimal_number ip 0)
        /\ clean_amount (PyStr ("(" ++ s ++ ")"))
           = Ok (fneg (decimal_number ip 0)))
  /\ clean_amount (PyStr "(1,234.50)") = Ok (dec (-1234.50)%Q)
  /\ clean_amount (PyStr "1,234.50") = Ok (dec 1234.50%Q)
  /\ clean_amount (PyStr "") = Ok (dec 0)
  /\ clean_amount (PyStr "None") = Ok (dec 0)
  /\ clean_amount PyNone = Ok (dec 0).
Proof.
  split; [|split; [|split; [|repeat split; float_eq]]].
  - intros s t. repeat split.
    + apply PyStrFacts.replace_empty_filter.
    + apply PyStrFacts.strip_by_spec.
    + intros u E. now apply clean_amount_wrapped.
    + apply clean_amount_empty.
    + intros W. apply clean_amount_plain.
      destruct (wrapped (cleaned (PyStr s))) eqn:E; [|reflexivity].
      apply PyStrFacts.wrapped_iff in E as [u E]. now destruct (W u).
  - intros s ip fp Hi Hf Hn Hs.
    apply (DecimalFacts.clean_amount_plain_text s ip fp
             (ip ++ "." ++ fp)%string (String.length fp)); auto.
  - intros s ip Hi Hn Hs.
    pose proof (DecimalFacts.clean_amount_plain_text s ip "" ip 0
                  Hi eq_refl Hn) as H.
    replace (decimal_number ip 0) with (decimal_number (ip ++ "") 0)
      by now rewrite PyStrFacts.append_nil_r.
    apply H; auto.
Qed.

(** ** The sample statements in binary64 *)

(** Every amount of the two sample reports is held exactly by binary64, so
    on them the exact sums of the model are the sums of the machine. *)
Lemma sample_amounts_binary64 :
  (exists r, main DayFirst.to_datetime (scenario_pdf header) = Generated r
             /\ forallb binary64_exact (report_amounts r) = true)
  /\ (exists r, main DayFirst.to_datetime undated_pdf = Generated r
                /\ forallb binary64_exact (report_amounts r) = true).
Proof.
  split; eexists; (split; [vm_compute; reflexivity|]); vm_compute;
    reflexivity.
Qed.

(** * Further properties of the program *)

(** ** The extraction loop *)

(** X1. Extraction works page by page: the rows of a document are those
    of its parts in order; a page without a table, with an empty table or
    with a header only gives nothing; the header row is never read; and
    there are never more records than rows after the headers. *)
Theorem extract_pages :
  (forall pdf1 pdf2, extract (pdf1 ++ pdf2) = extract pdf1 ++ extract pdf2)
  /\ (forall pdf, extract (None :: pdf) = extract pdf)
  /\ (forall pdf, extract (Some [] :: pdf) = extract pdf)
  /\ (forall h pdf, extract (Some [h] :: pdf) = extract pdf)
  /\ (forall to_datetime h h' data pdf,
        main to_datetime (Some (h :: data) :: pdf)
        = main to_datetime (Some (h' :: data) :: pdf))
  /\ (forall pdf, length (extract pdf) <= data_row_count pdf).
Proof.
  repeat match goal with |- _ /\ _ => split end.
  - intros pdf1 pdf2. rewrite !ExtractFacts.extract_eq. apply flat_map_app.
  - intros pdf. rewrite !ExtractFacts.extract_eq. reflexivity.
  - intros pdf. rewrite !ExtractFacts.extract_eq. reflexivity.
  - intros h pdf. rewrite !ExtractFacts.extract_eq. reflexivity.
  - intros to_datetime h h' data pdf. unfold main.
    rewrite !ExtractFacts.extract_eq. reflexivity.
  - intros pdf. rewrite ExtractFacts.extract_eq. unfold data_row_count.
    induction pdf as [|page pdf IH]; [reflexivity|].
    cbn [flat_map map list_sum]. rewrite length_app.
    apply Nat.add_le_mono; [|exact IH].
    destruct page as [table|]; [|reflexivity].
    unfold page_rows. rewrite length_map. apply filter_length_le.
Qed.

(** ** Failure and outcome of the report *)

(** X2. The report is built exactly when [clean_amount] accepts the
    withdrawal, deposit and balance cell of every extracted row; a single
    cell it rejects, the balance included, aborts the whole run with its
    [ValueError].  How the dates read makes no difference to this. *)
Theorem report_failure :
  (forall to_datetime rows,
     (exists r, report to_datetime rows = Ok r) <-> Forall amounts_parse rows)
  /\ (forall to_datetime rows,
        report to_datetime rows = Raise ValueError
        <-> ~ Forall amounts_parse rows)
  /\ (forall to_datetime pdf d,
        In d (extract pdf) ->
        clean_amount (raw_Withdrawals d) = Raise ValueError
        \/ clean_amount (raw_Deposits d) = Raise ValueError
        \/ clean_amount (raw_Balance d) = Raise ValueError ->
        main to_datetime pdf = Failed ValueError)
  /\ (forall to_datetime to_datetime' rows,
        (exists r, report to_datetime rows = Ok r) ->
        exists r', report to_datetime' rows = Ok r').
Proof.
  assert (Bad : forall d,
            clean_amount (raw_Withdrawals d) = Raise ValueError
            \/ clean_amount (raw_Deposits d) = Raise ValueError
            \/ clean_amount (raw_Balance d) = Raise ValueError ->
            ~ amounts_parse d).
  { intros d H (w & c & b & Hw & Hc & Hb).
    destruct H as [H|[H|H]]; congruence. }
  repeat match goal with |- _ /\ _ => split end.
  - apply report_returns_iff.
  - intros to_datetime rows. split.
    + intros H F. apply (report_returns_iff to_datetime) in F as [r F].
      congruence.
    + apply report_raises.
  - intros to_datetime pdf d Hin H. unfold main.
    destruct (extract pdf) as [|d0 l] eqn:E; [destruct Hin|].
    rewrite report_raises; [reflexivity|].
    intros F. rewrite Forall_forall in F. exact (Bad d H (F d Hin)).
  - intros to_datetime to_datetime' rows H.
    apply report_returns_iff. now apply report_returns_iff in H.
Qed.

(** X3. The upload hint of the [else] branch is what the script shows
    exactly when nothing was uploaded or no row after a header has nine
    cells: extraction itself never fails, and a report is never built from
    no rows.  When the data of the report is computed, the frame has one
    record per extracted row, each with a month label and a category, the
    category being one of the six labels. *)
Theorem upload_hint_and_frame
    (to_datetime : list pyobj -> pyobj -> Datetime) :
  (forall uploaded_file,
     app to_datetime uploaded_file = NoData <->
     uploaded_file = None
     \/ exists pdf,
          uploaded_file = Some pdf
          /\ forall row, is_data_row pdf row -> length row < 9)
  /\ (forall pdf,
        main to_datetime pdf = NoData <->
        forall row, is_data_row pdf row -> length row < 9)
  /\ (forall pdf r,
        main to_datetime pdf = Generated r ->
        df r <> []
        /\ length (df r) = length (extract pdf)
        /\ length (Month r) = length (df r)
        /\ length (Category r) = length (df r)
        /\ Forall (fun c => In c labels) (Category r)).
Proof.
  assert (M : forall pdf,
            main to_datetime pdf = NoData <->
            forall row, is_data_row pdf row -> length row < 9).
  { intros pdf. unfold main. split.
    - intros H row Hr.
      destruct (extract pdf) as [|d l] eqn:E.
      + destruct (Nat.lt_ge_cases (length row) 9) as [L|L]; [exact L|].
        assert (Hin : In (row_dict row) (extract pdf))
          by (apply ExtractFacts.In_extract; eauto).
        rewrite E in Hin. destruct Hin.
      + destruct (report to_datetime (d :: l)); discriminate.
    - intros H.
      destruct (extract pdf) as [|d l] eqn:E; [reflexivity|].
      assert (Hin : In d (extract pdf)) by (rewrite E; now left).
      apply ExtractFacts.In_extract in Hin as (row & Hr & Hl & _).
      specialize (H row Hr). lia. }
  repeat match goal with |- _ /\ _ => split end.
  - intros [pdf|]; cbn [app].
    + rewrite M. split.
      * intros H. right. now exists pdf.
      * intros [N|(pdf' & E & H)]; [discriminate N|].
        now injection E as <-.
    + split; auto.
  - exact M.
  - intros pdf r H. unfold main in H.
    destruct (extract pdf) as [|d l] eqn:E; [discriminate|].
    destruct (report to_datetime (d :: l)) as [r'|e] eqn:R; [|discriminate].
    injection H as ->.
    apply report_inv in R as (ts & F & Hdf & _ & _ & _ & HM & _ & HC & _).
    assert (L : length (df r) = length (d :: l)).
    { rewrite Hdf, <- (Permutation_length (SortFacts.sort_values_perm ts)).
      symmetry. exact (Forall2_length F). }
    repeat match goal with |- _ /\ _ => split end.
    + intros N. rewrite N in L. discriminate.
    + exact L.
    + rewrite HM. apply length_map.
    + rewrite HC. apply length_map.
    + rewrite HC. apply Forall_map, Forall_forall. intros t _.
      rewrite CategorizeFacts.categorize_first_match.
      apply CategorizeFacts.first_match_labels.
Qed.

(** ** The category summary *)

Module CategoryFacts.
Import GroupFacts.

Lemma category_rows (l : DataFrame) :
  combine (map Some (map (fun t => categorize (Particulars t)) l))
    (map Withdrawals l)
  = map (fun t => (Some (categorize (Particulars t)), Withdrawals t)) l.
Proof. induction l; simpl; congruence. Qed.

Lemma group_of_category (k : string) (l : DataFrame) :
  group_of k
    (map (fun t => (Some (categorize (Particulars t)), Withdrawals t)) l)
  = map Withdrawals (filter (in_category k) l).
Proof.
  unfold group_of, in_category.
  induction l as [|t l IH]; simpl; [reflexivity|].
  destruct (categorize (Particulars t) =? k); simpl; congruence.
Qed.

Lemma in_category_one (k k' : string) (t : Transaction) :
  in_category k t = true -> in_category k' t = true -> k = k'.
Proof.
  unfold in_category. intros H H'. apply String.eqb_eq in H, H'. congruence.
Qed.

Section Summary.
Variable to_datetime : list pyobj -> pyobj -> Datetime.

(** The entries of the category summary: one for each category that a
    record has, with the sum over the records of that category. *)
Lemma category_entries (rows : list RowDict) (r : Report) :
  report to_datetime rows = Ok r ->
  keys_ascending (category_summary r)
  /\ forall k v,
       In (k, v) (category_summary r) <->
       filter (in_category k) (df r) <> []
       /\ v = Series_sum (map Withdrawals (filter (in_category k) (df r))).
Proof.
  intros H.
  apply report_inv in H as (ts & _ & _ & _ & _ & _ & _ & _ & HC & Hcs).
  rewrite HC, category_rows in Hcs.
  destruct (groupby_sum_spec (dec 0) nanadd
              (map (fun t => (Some (categorize (Particulars t)),
                              Withdrawals t)) (df r))) as [Hs Hin].
  rewrite <- Hcs in Hs, Hin. split; [exact Hs|].
  intros k v. rewrite Hin, group_of_category. split.
  - intros [Hne ->]. split; [|reflexivity].
    intros N. apply Hne. now rewrite N.
  - intros [Hne ->]. split; [|reflexivity].
    intros N. apply Hne. now apply map_eq_nil in N.
Qed.

(** The category of every record is a key of the summary. *)
Lemma category_key (rows : list RowDict) (r : Report) :
  report to_datetime rows = Ok r ->
  forall t, In t (df r) ->
    In (categorize (Particulars t)) (map fst (category_summary r)).
Proof.
  intros H t Ht. destruct (category_entries rows r H) as [_ Hin].
  set (k := categorize (Particulars t)).
  assert (I : In t (filter (in_category k) (df r))).
  { apply filter_In. split; [exact Ht|]. apply String.eqb_refl. }
  apply in_map_iff.
  exists (k, Series_sum (map Withdrawals (filter (in_category k) (df r)))).
  split; [reflexivity|]. apply Hin. split; [|reflexivity].
  intros N. rewrite N in I. destruct I.
Qed.

End Summary.

End CategoryFacts.



(** X5. Every record has exactly one category, so the category summary
    counts every record once, the records without a readable date
    included: its categories are distinct, the category of every record is
    among them, and the groups of its entries hold, together, the whole
    frame. *)
Theorem category_cover
    (to_datetime : list pyobj -> pyobj -> Datetime)
    (rows : list RowDict) (r : Report) :
  report to_datetime rows = Ok r ->
  NoDup (map fst (category_summary r))
  /\ (forall t, In t (df r) ->
        In (categorize (Particulars t)) (map fst (category_summary r)))
  /\ (forall t k k',
        in_category k t = true -> in_category k' t = true -> k = k')
  /\ Permutation (concat (category_groups r)) (df r).
Proof.
  intros H.
  destruct (CategoryFacts.category_entries to_datetime rows r H) as [Hs _].
  pose proof (CategoryFacts.category_key to_datetime rows r H) as K.
  pose proof (RegroupFacts.keys_ascending_NoDup _ Hs) as N.
  repeat match goal with |- _ /\ _ => split end.
  - exact N.
  - exact K.
  - intros t k k'. apply CategoryFacts.in_category_one.
  - unfold category_groups.
    rewrite (RegroupFacts.map_entries_keys
               (fun k => filter (in_category k) (df r))).
    rewrite (RegroupFacts.groups_partition in_category
               CategoryFacts.in_category_one _ (df r) N).
    rewrite RegroupFacts.filter_all; [reflexivity|].
    intros t Ht. apply existsb_exists.
    exists (categorize (Particulars t)). split; [now apply K|].
    apply String.eqb_refl.
Qed.

Lemma category_cover_witness :
  exists r,
    report DayFirst.to_datetime (extract undated_pdf) = Ok r
    /\ NoDup (map fst (category_summary r))
    /\ (forall t, In t (df r) ->
          In (categorize (Particulars t)) (map fst (category_summary r)))
    /\ (forall t k k',
          in_category k t = true -> in_category k' t = true -> k = k')
    /\ Permutation (concat (category_groups r)) (df r).
Proof.
  eexists. split; [vm_compute; reflexivity|].
  apply (category_cover DayFirst.to_datetime (extract undated_pdf)).
  vm_compute. reflexivity.
Defined.

(** ** Month labels *)

Module LabelFacts.

Lemma to_int_proper (z : Z) :
  Z.to_int z <> Decimal.Pos Decimal.Nil
  /\ Z.to_int z <> Decimal.Neg Decimal.Nil.
Proof.
  split; intros E; pose proof (DecimalZ.of_to z) as H; rewrite E in H;
    simpl in H; subst z; discriminate E.
Qed.

Lemma str_int_inj (a b : Z) : str (PyInt a) = str (PyInt b) -> a = b.
Proof.
  cbn [str]. intros H.
  apply (f_equal NilZero.int_of_string) in H.
  destruct (to_int_proper a) as [A1 A2], (to_int_proper b) as [B1 B2].
  rewrite !NilZero.isi in H by assumption.
  injection H as H. now apply DecimalZ.to_int_inj.
Qed.

Lemma month_name_inj (m m' : CalendarMonth) (a b : string) :
  (month_name m ++ " " ++ a)%string = (month_name m' ++ " " ++ b)%string ->
  m = m' /\ a = b.
Proof.
  destruct m, m'; simpl; intros H; try discriminate H;
    injection H as ->; auto.
Qed.

Lemma label_inj (a b : Timestamp) :
  strftime_B_Y (Some a) = strftime_B_Y (Some b) <->
  year a = year b /\ month a = month b.
Proof.
  cbn [strftime_B_Y]. split.
  - intros [= H]. apply month_name_inj in H as [Hm Hy].
    apply str_int_inj in Hy. auto.
  - intros [-> ->]. reflexivity.
Qed.

End LabelFacts.

(** X7. Two dated records are summed in the same monthly group exactly
    when their dates have the same year and the same month: the label
    ["%B %Y"] tells apart any two months and any two years, and ignores the
    day and the time. *)
Theorem month_label_groups :
  (forall a b : Timestamp,
     strftime_B_Y (Some a) = strftime_B_Y (Some b) <->
     year a = year b /\ month a = month b)
  /\ (forall (t u : Transaction) (a b : Timestamp),
        Date t = Some a -> Date u = Some b ->
        ((exists k, in_month k t = true /\ in_month k u = true) <->
         year a = year b /\ month a = month b)).
Proof.
  split; [apply LabelFacts.label_inj|].
  intros t u a b Ht Hu. rewrite <- LabelFacts.label_inj.
  unfold in_month. rewrite Ht, Hu.
  destruct (strftime_B_Y (Some a)) as [ka|] eqn:Ea; [|discriminate].
  destruct (strftime_B_Y (Some b)) as [kb|] eqn:Eb; [|discriminate].
  split.
  - intros (k & H1 & H2). apply String.eqb_eq in H1, H2. congruence.
  - intros [= ->]. exists kb. now rewrite String.eqb_refl.
Qed.

(** ** Order and size of the monthly summary *)

Module MonthlyOrder.
Import GroupFacts.

Lemma sorted_nth {A : Type} (R : A -> A -> Prop) (l : list A) :
  StronglySorted R l ->
  forall i j x y, i < j ->
    nth_error l i = Some x -> nth_error l j = Some y -> R x y.
Proof.
  induction 1 as [|a l Hs IH Ha]; intros i j x y Hij Hi Hj.
  - destruct i; discriminate.
  - destruct j as [|j]; [lia|]. simpl in Hj.
    destruct i as [|i]; simpl in Hi.
    + injection Hi as <-. rewrite Forall_forall in Ha.
      apply Ha. eapply nth_error_In; eauto.
    + apply (IH i j); auto. lia.
Qed.

Lemma keys_order {V : Type} (g : list (string * V)) :
  keys_ascending g ->
  forall i j k1 k2,
    nth_error (map fst g) i = Some k1 ->
    nth_error (map fst g) j = Some k2 ->
    (i < j <-> String.compare k1 k2 = Lt).
Proof.
  intros Hs i j k1 k2 Hi Hj.
  rewrite nth_error_map in Hi, Hj.
  destruct (nth_error g i) as [e1|] eqn:E1; [|discriminate].
  destruct (nth_error g j) as [e2|] eqn:E2; [|discriminate].
  injection Hi as <-. injection Hj as <-.
  split.
  - intros L. exact (sorted_nth _ g Hs i j e1 e2 L E1 E2).
  - intros C. destruct (Nat.lt_trichotomy i j) as [L|[E|G]]; [exact L| |].
    + subst j. rewrite E1 in E2. injection E2 as <-.
      rewrite compare_refl in C. discriminate.
    + pose proof (sorted_nth _ g Hs j i e2 e1 G E2 E1) as C'.
      simpl in C'. rewrite String.compare_antisym, C' in C. discriminate.
Qed.

Lemma labels_of_length (l : DataFrame) :
  length (labels_of l) = length (filter known_date l).
Proof.
  unfold labels_of. induction l as [|t l IH]; [reflexivity|].
  cbn [flat_map filter]. unfold label at 1, known_date at 1.
  destruct (Date t); simpl; congruence.
Qed.

Lemma In_labels_of (k : string) (l : DataFrame) :
  In k (labels_of l) <-> filter (in_month k) l <> [].
Proof.
  unfold labels_of. rewrite in_flat_map. split.
  - intros (t & Ht & Hk). unfold label in Hk.
    intros N.
    assert (Hin : In t (filter (in_month k) l)).
    { apply filter_In. split; [exact Ht|]. unfold in_month.
      destruct (strftime_B_Y (Date t)) as [k'|]; [|destruct Hk].
      destruct Hk as [->|[]]. apply String.eqb_refl. }
    rewrite N in Hin. destruct Hin.
  - intros Hne. destruct (filter (in_month k) l) as [|t l'] eqn:F;
      [congruence|].
    assert (Hin : In t (filter (in_month k) l)) by (rewrite F; now left).
    apply filter_In in Hin as [Ht Hk]. exists t. split; [exact Ht|].
    unfold in_month in Hk. unfold label.
    destruct (strftime_B_Y (Date t)) as [k'|]; [|discriminate].
    apply String.eqb_eq in Hk. subst k'. now left.
Qed.

End MonthlyOrder.

Section MonthlyKeys.
Variable to_datetime : list pyobj -> pyobj -> Datetime.

Lemma monthly_keys (rows : list RowDict) (r : Report) :
  report to_datetime rows = Ok r ->
  keys_ascending (monthly r)
  /\ forall k, In k (map fst (monthly r)) <-> In k (labels_of (df r)).
Proof.
  intros H. pose proof (monthly_eq to_datetime rows r H) as Hm.
  destruct (GroupFacts.groupby_sum_spec (dec 0, dec 0) nanadd2
              (map (fun t => (label t, amounts t)) (df r))) as [Hs Hin].
  rewrite <- Hm in Hs, Hin. split; [exact Hs|].
  intros k. rewrite MonthlyOrder.In_labels_of. split.
  - intros Hk. apply in_map_iff in Hk as ([k' v] & E & Hk).
    simpl in E. subst k'. apply Hin in Hk as [Hne _].
    rewrite MonthlyFacts.group_of_frame in Hne.
    intros N. apply Hne. now rewrite N.
  - intros Hne.
    apply in_map_iff.
    exists (k, fold_left nanadd2
                 (group_of k (map (fun t => (label t, amounts t)) (df r)))
                 (dec 0, dec 0)).
    split; [reflexivity|]. apply Hin. split; [|reflexivity].
    rewrite MonthlyFacts.group_of_frame.
    intros N. apply Hne. now apply map_eq_nil in N.
Qed.

End MonthlyKeys.

(** X8. The monthly summary lists its entries in the order of their label
    text, not of time: an entry comes before another exactly when its
    label is the smaller string, so the April of any year is listed before
    the January of any year. *)
Theorem monthly_order
    (to_datetime : list pyobj -> pyobj -> Datetime)
    (rows : list RowDict) (r : Report) :
  report to_datetime rows = Ok r ->
  (forall i j k1 k2,
     nth_error (map fst (monthly r)) i = Some k1 ->
     nth_error (map fst (monthly r)) j = Some k2 ->
     (i < j <-> String.compare k1 k2 = Lt))
  /\ (forall i j (a b : Timestamp),
        month a = April -> month b = January ->
        nth_error (map fst (monthly r)) i = strftime_B_Y (Some a) ->
        nth_error (map fst (monthly r)) j = strftime_B_Y (Some b) ->
        i < j).
Proof.
  intros H. destruct (monthly_keys to_datetime rows r H) as [Hs _].
  split; [now apply MonthlyOrder.keys_order|].
  intros i j a b Ha Hb Hi Hj.
  apply (MonthlyOrder.keys_order (monthly r) Hs i j _ _ Hi Hj).
  rewrite Ha, Hb. reflexivity.
Qed.

Lemma monthly_order_witness :
  exists r,
    report DayFirst.to_datetime (extract spring_pdf) = Ok r
    /\ map fst (monthly r) = ["April 2023"; "January 2023"]
    /\ (forall i j k1 k2,
          nth_error (map fst (monthly r)) i = Some k1 ->
          nth_error (map fst (monthly r)) j = Some k2 ->
          (i < j <-> String.compare k1 k2 = Lt))
    /\ (forall i j (a b : Timestamp),
          month a = April -> month b = January ->
          nth_error (map fst (monthly r)) i = strftime_B_Y (Some a) ->
          nth_error (map fst (monthly r)) j = strftime_B_Y (Some b) ->
          i < j).
Proof.
  eexists. split; [vm_compute; reflexivity|].
  split; [vm_compute; reflexivity|].
  apply (monthly_order DayFirst.to_datetime (extract spring_pdf)).
  vm_compute. reflexivity.
Defined.

(** X9. The monthly summary has one entry for each distinct month label of
    a dated record and no other: never more entries than dated records,
    and none at all exactly when no date could be read. *)
Theorem monthly_size
    (to_datetime : list pyobj -> pyobj -> Datetime)
    (rows : list RowDict) (r : Report) :
  report to_datetime rows = Ok r ->
  NoDup (map fst (monthly r))
  /\ (forall k, In k (map fst (monthly r)) <->
                exists t, In t (df r) /\ label t = Some k)
  /\ length (monthly r) <= length (filter known_date (df r))
  /\ (monthly r = [] <-> forall t, In t (df r) -> Date t = None).
Proof.
  intros H. destruct (monthly_keys to_datetime rows r H) as [Hs Hk].
  pose proof (RegroupFacts.keys_ascending_NoDup _ Hs) as Hn.
  assert (Hlen : length (monthly r) <= length (filter known_date (df r))).
  { rewrite <- MonthlyOrder.labels_of_length, <- (length_map fst).
    apply NoDup_incl_length; [exact Hn|]. intros k. apply Hk. }
  assert (Hin : forall k, In k (labels_of (df r)) <->
                          exists t, In t (df r) /\ label t = Some k).
  { intros k. unfold labels_of. rewrite in_flat_map. split.
    - intros (t & Ht & Hl). exists t. split; [exact Ht|].
      destruct (label t) as [k'|]; [|destruct Hl].
      destruct Hl as [->|[]]. reflexivity.
    - intros (t & Ht & Hl). exists t. split; [exact Ht|].
      rewrite Hl. now left. }
  repeat match goal with |- _ /\ _ => split end.
  - exact Hn.
  - intros k. now rewrite Hk.
  - exact Hlen.
  - split.
    + intros E t Ht. destruct (Date t) as [x|] eqn:D; [|reflexivity].
      exfalso.
      assert (Hl : In (month_name (month x) ++ " "
                       ++ str (PyInt (year x)))%string
                     (map fst (monthly r))).
      { apply Hk, Hin. exists t. split; [exact Ht|].
        unfold label. now rewrite D. }
      rewrite E in Hl. destruct Hl.
    + intros Hall.
      assert (F : filter known_date (df r) = []).
      { rewrite <- (filter_false (df r)). apply filter_ext_in.
        intros t Ht. unfold known_date. now rewrite (Hall t Ht). }
      rewrite F in Hlen. simpl in Hlen.
      destruct (monthly r); [reflexivity|simpl in Hlen; lia].
Qed.

Lemma monthly_size_witness :
  exists r,
    report DayFirst.to_datetime (extract undated_pdf) = Ok r
    /\ NoDup (map fst (monthly r))
    /\ (forall k, In k (map fst (monthly r)) <->
                  exists t, In t (df r) /\ label t = Some k)
    /\ length (monthly r) <= length (filter known_date (df r))
    /\ (monthly r = [] <-> forall t, In t (df r) -> Date t = None).
Proof.
  eexists. split; [vm_compute; reflexivity|].
  apply (monthly_size DayFirst.to_datetime (extract undated_pdf)).
  vm_compute. reflexivity.
Defined.

(** ** More on [clean_amount] *)

Module CleanFacts.
Import PyStr PyStrFacts PyFloat.

Lemma lstrip_by_all ws (l : string) :
  forall_chars ws l = true -> lstrip_by ws l = "".
Proof.
  induction l as [|c l IH]; simpl; [reflexivity|].
  rewrite andb_true_iff. intros [-> H]. auto.
Qed.

Lemma lstrip_by_prefix ws (l s : string) :
  forall_chars ws l = true -> lstrip_by ws (l ++ s) = lstrip_by ws s.
Proof.
  induction l as [|c l IH]; simpl; [reflexivity|].
  rewrite andb_true_iff. intros [-> H]. auto.
Qed.

Lemma lstrip_by_append ws (s r : string) :
  lstrip_by ws (s ++ r)
  = match lstrip_by ws s with
    | EmptyString => lstrip_by ws r
    | u => (u ++ r)%string
    end.
Proof.
  induction s as [|c s IH]; simpl.
  - now destruct (lstrip_by ws r).
  - destruct (ws c); [exact IH|reflexivity].
Qed.

Lemma rstrip_by_suffix ws (s r : string) :
  forall_chars ws r = true -> rstrip_by ws (s ++ r) = rstrip_by ws s.
Proof.
  intros H. unfold rstrip_by. rewrite rev_append, lstrip_by_prefix;
    [reflexivity|]. now rewrite forall_chars_rev.
Qed.

Lemma strip_by_surrounded ws (l s r : string) :
  forall_chars ws l = true -> forall_chars ws r = true ->
  strip_by ws (l ++ s ++ r) = strip_by ws s.
Proof.
  intros Hl Hr. unfold strip_by.
  rewrite (lstrip_by_prefix ws l _ Hl), lstrip_by_append.
  destruct (lstrip_by ws s) as [|c u] eqn:E.
  - now rewrite (lstrip_by_all ws r Hr).
  - now apply rstrip_by_suffix.
Qed.

Lemma replace_other (c : ascii) (P : ascii -> bool) (l : string) :
  P c = false -> forall_chars P l = true -> replace c "" l = l.
Proof.
  intros Hc. induction l as [|a l IH]; simpl; [reflexivity|].
  rewrite andb_true_iff. intros [Ha Hl].
  destruct (Ascii.eqb_spec a c) as [->|_]; [congruence|].
  now rewrite (IH Hl).
Qed.

Lemma cleaned_comma (a b : string) :
  cleaned (PyStr (a ++ "," ++ b)) = cleaned (PyStr (a ++ b)).
Proof.
  unfold cleaned. cbn [str].
  now rewrite !DecimalFacts.replace_append.
Qed.

Lemma cleaned_surrounded (l s r : string) :
  forall_chars isspace l = true -> forall_chars isspace r = true ->
  cleaned (PyStr (l ++ s ++ r)) = cleaned (PyStr s).
Proof.
  intros Hl Hr. unfold cleaned, strip. cbn [str].
  rewrite !DecimalFacts.replace_append.
  rewrite (replace_other "," isspace l eq_refl Hl).
  rewrite (replace_other "," isspace r eq_refl Hr).
  now apply strip_by_surrounded.
Qed.

Lemma clean_amount_cleaned (x y : pyobj) :
  cleaned x = cleaned y -> clean_amount x = clean_amount y.
Proof. intros H. rewrite !clean_amount_unfold. now rewrite H. Qed.

Lemma digits_no_comma (s : string) :
  all_digits s -> replace "," "" s = s.
Proof.
  intros H. apply (replace_other "," isdigit); [reflexivity|exact H].
Qed.

End CleanFacts.

(** X10. [clean_amount] looks only at the text left after dropping the
    commas and the surrounding whitespace: a comma at any place and
    whitespace at either end change nothing.  A comma is never a decimal
    mark: digits, a comma and more digits read as the whole number that
    the digits write together. *)
Theorem clean_amount_separators :
  (forall a b : string,
     clean_amount (PyStr (a ++ "," ++ b)) = clean_amount (PyStr (a ++ b)))
  /\ (forall l s r : string,
        forall_chars PyStr.isspace l = true ->
        forall_chars PyStr.isspace r = true ->
        clean_amount (PyStr (l ++ s ++ r)) = clean_amount (PyStr s))
  /\ (forall ip fp : string,
        all_digits ip -> all_digits fp -> ip <> "" ->
        clean_amount (PyStr (ip ++ "," ++ fp))
        = Ok (decimal_number (ip ++ fp) 0)).
Proof.
  repeat match goal with |- _ /\ _ => split end.
  - intros a b. apply CleanFacts.clean_amount_cleaned,
      CleanFacts.cleaned_comma.
  - intros l s r Hl Hr. now apply CleanFacts.clean_amount_cleaned,
      CleanFacts.cleaned_surrounded.
  - intros ip fp Hi Hf Hn.
    assert (D : all_digits (ip ++ fp)).
    { unfold all_digits in *.
      now rewrite PyStrFacts.forall_chars_append, Hi, Hf. }
    assert (N : (ip ++ fp)%string <> "").
    { destruct ip; [congruence|discriminate]. }
    pose proof (DecimalFacts.clean_amount_plain_text
                  (ip ++ "," ++ fp) (ip ++ fp) "" (ip ++ fp) 0
                  D eq_refl N) as H.
    replace (decimal_number (ip ++ fp) 0)
      with (decimal_number ((ip ++ fp) ++ "") 0)
      by now rewrite PyStrFacts.append_nil_r.
    apply H.
    + right. auto.
    + rewrite DecimalFacts.replace_append.
      change (PyStr.replace "," "" ("," ++ fp))
        with (PyStr.replace "," "" fp).
      now rewrite (CleanFacts.digits_no_comma ip Hi),
                  (CleanFacts.digits_no_comma fp Hf).
Qed.

(** ** The characters of an accepted amount *)

Module AlphabetFacts.
Import PyStr PyStrFacts PyFloat.

Lemma isdigit_float (c : ascii) : isdigit c = true -> float_char c = true.
Proof. unfold float_char. now intros ->. Qed.

Lemma isspace_c_float (c : ascii) :
  isspace_c c = true -> float_char c = true.
Proof. unfold float_char. intros ->. now rewrite orb_true_r. Qed.

Lemma word_float (c : ascii) :
  in_text "inf" c = true \/ in_text "inity" c = true
  \/ in_text "nan" c = true \/ in_text "e" c = true
  \/ in_text "+-" c = true \/ in_text "._" c = true ->
  float_char c = true.
Proof.
  destruct c as [[] [] [] [] [] [] [] []]; vm_compute; intuition congruence.
Qed.

Lemma take_sign_split (s r : string) (b : bool) :
  take_sign s = (b, r) ->
  exists p, s = (p ++ r)%string /\ forall_chars (in_text "+-") p = true.
Proof.
  destruct s as [|c s]; simpl.
  - intros [= _ <-]. now exists "".
  - destruct (Ascii.eqb_spec c "-") as [->|N1].
    { intros [= _ <-]. now exists "-". }
    destruct (Ascii.eqb_spec c "+") as [->|N2].
    { intros [= _ <-]. now exists "+". }
    intros H. exists "".
    assert (E : r = String c s).
    { destruct c as [[] [] [] [] [] [] [] []];
        try (now destruct N1); try (now destruct N2);
        now injection H. }
    now rewrite E.
Qed.

Lemma span_digits_split (s d r : string) :
  span_digits s = (d, r) ->
  s = (d ++ r)%string /\ forall_chars isdigit d = true.
Proof.
  revert d r. induction s as [|c s IH]; intros d r; simpl.
  - intros [= <- <-]. auto.
  - destruct (isdigit c) eqn:Hc.
    + destruct (span_digits s) as [d' r'] eqn:E.
      intros [= <- <-]. destruct (IH d' r' eq_refl) as [-> Hd].
      simpl. now rewrite Hc, Hd.
    + intros [= <- <-]. auto.
Qed.

Lemma in_text_cons (a c : ascii) (text : string) :
  in_text text c = true -> in_text (String a text) c = true.
Proof. unfold in_text. simpl. intros ->. apply orb_true_r. Qed.

Lemma match_split (s text r : string) :
  case_insensitive_match s text = Some r ->
  exists p, s = (p ++ r)%string /\ forall_chars (in_text text) p = true.
Proof.
  revert s. induction text as [|ct text IH]; intros s.
  - destruct s; simpl; intros [= <-]; now exists "".
  - destruct s as [|cs s]; simpl; [discriminate|].
    destruct (Ascii.eqb_spec (tolower cs) ct) as [E|_]; [|discriminate].
    intros H. destruct (IH s H) as (p & -> & Hp).
    exists (String cs p). split; [reflexivity|]. simpl.
    apply andb_true_iff. split.
    + unfold in_text. simpl. now rewrite E, Ascii.eqb_refl.
    + eapply DecimalFacts.forall_chars_impl; [|exact Hp].
      intros c. apply in_text_cons.
Qed.

Lemma consumed_refl (s : string) : consumed s s.
Proof. now exists "". Qed.

Lemma consumed_trans (s r q : string) :
  consumed s r -> consumed r q -> consumed s q.
Proof.
  intros (p1 & -> & H1) (p2 & -> & H2). exists (p1 ++ p2)%string.
  split; [now rewrite append_assoc|].
  now rewrite forall_chars_append, H1, H2.
Qed.

Lemma consumed_by (P : ascii -> bool) (s r : string) :
  (forall c, P c = true -> float_char c = true) ->
  (exists p, s = (p ++ r)%string /\ forall_chars P p = true) ->
  consumed s r.
Proof.
  intros PF (p & -> & Hp). exists p. split; [reflexivity|].
  eapply DecimalFacts.forall_chars_impl; eauto.
Qed.

Lemma consumed_char (c : ascii) (s : string) :
  float_char c = true -> consumed (String c s) s.
Proof.
  intros H. exists (String c ""). split; [reflexivity|]. simpl.
  now rewrite H.
Qed.

Lemma take_sign_consumed (s r : string) (b : bool) :
  take_sign s = (b, r) -> consumed s r.
Proof.
  intros H. apply (consumed_by (in_text "+-")).
  - intros c Hc. apply word_float. tauto.
  - eapply take_sign_split; eauto.
Qed.

Lemma span_digits_consumed (s d r : string) :
  span_digits s = (d, r) -> consumed s r.
Proof.
  intros H. apply (consumed_by isdigit); [apply isdigit_float|].
  exists d. now apply span_digits_split.
Qed.

Lemma match_consumed (s text r : string) :
  text = "inf" \/ text = "inity" \/ text = "nan" ->
  case_insensitive_match s text = Some r -> consumed s r.
Proof.
  intros Ht H. apply (consumed_by (in_text text)).
  - intros c Hc. apply word_float.
    destruct Ht as [-> | [-> | ->]]; tauto.
  - now apply match_split.
Qed.

Lemma take_exponent_consumed (s r : string) (e : Z) :
  take_exponent s = (e, r) -> consumed s r.
Proof.
  unfold take_exponent. destruct s as [|c s].
  - intros [= _ <-]. apply consumed_refl.
  - destruct (Ascii.eqb_spec (tolower c) "e") as [E|_].
    + destruct (take_sign s) as [eneg s1] eqn:S1.
      destruct (span_digits s1) as [ds s2] eqn:S2.
      destruct ds as [|d ds].
      * intros [= _ <-]. apply consumed_refl.
      * intros [= _ <-].
        eapply consumed_trans; [|eapply span_digits_consumed; eauto].
        eapply consumed_trans; [|eapply take_sign_consumed; eauto].
        apply consumed_char, word_float.
        right; right; right; left.
        unfold in_text. simpl. now rewrite E.
    + intros [= _ <-]. apply consumed_refl.
Qed.

Lemma strtod_consumed (s r : string) (v : pyfloat) :
  strtod s = Some (v, r) -> consumed s r.
Proof.
  unfold strtod.
  destruct (take_sign s) as [neg s1] eqn:S1.
  destruct (span_digits s1) as [ip s2] eqn:S2.
  destruct (match s2 with
            | String "." s' => span_digits s'
            | _ => (EmptyString, s2)
            end) as [fp s3] eqn:S3.
  destruct (ip ++ fp)%string as [|c ds]; [discriminate|].
  destruct (take_exponent s3) as [ex s4] eqn:S4.
  intros [= _ <-].
  eapply consumed_trans; [eapply take_sign_consumed; eauto|].
  eapply consumed_trans; [eapply span_digits_consumed; eauto|].
  eapply consumed_trans; [|eapply take_exponent_consumed; eauto].
  destruct s2 as [|c2 s2']; [injection S3 as _ <-; apply consumed_refl|].
  destruct (Ascii.eqb_spec c2 ".") as [->|N].
  - eapply consumed_trans; [|eapply span_digits_consumed; eauto].
    apply consumed_char. reflexivity.
  - assert (E : s3 = String c2 s2').
    { destruct c2 as [[] [] [] [] [] [] [] []];
        try (now destruct N); now injection S3. }
    rewrite E. apply consumed_refl.
Qed.

Lemma parse_inf_or_nan_consumed (s r : string) (v : pyfloat) :
  parse_inf_or_nan s = Some (v, r) -> consumed s r.
Proof.
  unfold parse_inf_or_nan.
  destruct (take_sign s) as [neg s1] eqn:S1.
  intros H.
  eapply consumed_trans; [eapply take_sign_consumed; eauto|].
  destruct (case_insensitive_match s1 "inf") as [s2|] eqn:M1.
  - eapply consumed_trans; [eapply (match_consumed s1 "inf"); eauto|].
    destruct (case_insensitive_match s2 "inity") as [s3|] eqn:M2;
      injection H as _ <-.
    + eapply (match_consumed s2 "inity"); eauto.
    + apply consumed_refl.
  - destruct (case_insensitive_match s1 "nan") as [s2|] eqn:M3;
      [|discriminate].
    injection H as _ <-. eapply (match_consumed s1 "nan"); eauto.
Qed.

Lemma string_to_double_alphabet (u : string) (v : pyfloat) :
  string_to_double u = Some (v, "") -> forall_chars float_char u = true.
Proof.
  unfold string_to_double. intros H.
  assert (C : consumed u "").
  { destruct (strtod u) as [[w r]|] eqn:S.
    - injection H as -> ->. eapply strtod_consumed; eauto.
    - eapply parse_inf_or_nan_consumed; eauto. }
  destruct C as (p & -> & Hp). now rewrite append_nil_r.
Qed.

Lemma underscores_loop_alphabet (P : ascii -> bool) (s t : string)
    (prev : ascii) :
  P "_"%char = true ->
  underscores_loop prev s = Some t ->
  forall_chars P t = true -> forall_chars P s = true.
Proof.
  intros Hu. revert t prev. induction s as [|c s IH]; intros t prev; simpl.
  - auto.
  - destruct (Ascii.eqb c zero); [discriminate|].
    destruct (is_underscore c) eqn:U.
    + apply Ascii.eqb_eq in U. subst c.
      destruct (isdigit prev); [|discriminate].
      intros H Ht. rewrite Hu. simpl. eapply IH; eauto.
    + destruct (is_underscore prev && negb (isdigit c)); [discriminate|].
      destruct (underscores_loop c s) as [t'|] eqn:L; [|discriminate].
      intros [= <-]. simpl. rewrite !andb_true_iff. intros [Hc Ht].
      split; [exact Hc|]. eapply IH; eauto.
Qed.

(** Every character of a text that [float] accepts is a [float_char]. *)
Lemma float_alphabet (t : string) (v : pyfloat) :
  float t = Ok v -> forall_chars float_char t = true.
Proof.
  unfold float, without_underscores. intros H.
  assert (A : forall t1,
            match strip_by isspace_c t1 with
            | EmptyString => Raise ValueError
            | u => match string_to_double u with
                   | Some (v, EmptyString) => Ok v
                   | _ => Raise ValueError
                   end
            end = Ok v -> forall_chars float_char t1 = true).
  { intros t1 H1.
    destruct (strip_by_spec isspace_c t1) as (l & r & E & Hl & Hr & _).
    destruct (strip_by isspace_c t1) as [|c u]; [discriminate|].
    destruct (string_to_double (String c u)) as [[w rest]|] eqn:S;
      [|discriminate].
    destruct rest; [|discriminate].
    apply string_to_double_alphabet in S.
    rewrite E, !forall_chars_append, S.
    rewrite (DecimalFacts.forall_chars_impl isspace_c float_char l
               isspace_c_float Hl).
    now rewrite (DecimalFacts.forall_chars_impl isspace_c float_char r
                   isspace_c_float Hr). }
  destruct (contains "_" t).
  - destruct (underscores_loop zero t) as [t1|] eqn:U; [|discriminate].
    eapply underscores_loop_alphabet; eauto.
  - now apply A.
Qed.

Lemma forall_chars_occurs (P : ascii -> bool) (c : ascii) (s : string) :
  forall_chars P s = true -> occurs c s -> P c = true.
Proof.
  intros H (a & b & ->). rewrite forall_chars_append in H.
  apply andb_true_iff in H as [_ H]. simpl in H.
  now apply andb_true_iff in H as [H _].
Qed.

End AlphabetFacts.

Module ParenFacts.
Import PyStr PyStrFacts PyFloat.

Lemma float_rejects (c : ascii) (t : string) :
  float_char c = false -> occurs c t -> float t = Raise ValueError.
Proof.
  intros Hc Ho. destruct (float t) as [v|[]] eqn:F; [|reflexivity].
  apply AlphabetFacts.float_alphabet in F.
  apply (AlphabetFacts.forall_chars_occurs _ c) in F; [congruence|exact Ho].
Qed.

Lemma float_accepts (t : string) (v : pyfloat) :
  float t = Ok v -> t <> "" /\ t <> "None" /\ wrapped t = false.
Proof.
  intros F. repeat split.
  - intros ->. vm_compute in F. discriminate.
  - intros ->. vm_compute in F. discriminate.
  - apply AlphabetFacts.float_alphabet in F.
    destruct t as [|c t]; [reflexivity|]. simpl in F.
    apply andb_true_iff in F as [F _].
    unfold wrapped, startswith. rewrite prefix_cons.
    destruct (Ascii.eqb_spec "(" c) as [<-|_]; [|reflexivity].
    vm_compute in F. discriminate.
Qed.

(** Outside of the wrapping pair, a parenthesis makes [clean_amount]
    raise. *)
Lemma unwrapped_paren (x : pyobj) (c : ascii) :
  c = "("%char \/ c = ")"%char ->
  wrapped (cleaned x) = false -> occurs c (cleaned x) ->
  clean_amount x = Raise ValueError.
Proof.
  intros Hc W Ho. rewrite clean_amount_unfold, W.
  assert (Fc : float_char c = false) by (destruct Hc as [-> | ->]; reflexivity).
  destruct (cleaned x =? "") eqn:E1.
  { apply String.eqb_eq in E1. rewrite E1 in Ho.
    destruct Ho as (a & b & E). now destruct a. }
  destruct (cleaned x =? "None") eqn:E2.
  { apply String.eqb_eq in E2. rewrite E2 in Ho.
    assert (N : forall_chars (fun a => negb (Ascii.eqb a "(")
                                       && negb (Ascii.eqb a ")")) "None"
                = true) by reflexivity.
    apply (AlphabetFacts.forall_chars_occurs _ c) in N; [|exact Ho].
    destruct Hc as [-> | ->]; discriminate. }
  simpl. now apply (float_rejects c).
Qed.

Lemma inner_paren (x : pyobj) (c : ascii) (u : string) :
  c = "("%char \/ c = ")"%char ->
  cleaned x = ("(" ++ u ++ ")")%string -> occurs c u ->
  clean_amount x = Raise ValueError.
Proof.
  intros Hc E Ho. rewrite (clean_amount_wrapped x u E).
  assert (Fc : float_char c = false) by (destruct Hc as [-> | ->]; reflexivity).
  now rewrite (float_rejects c u Fc Ho).
Qed.

End ParenFacts.

(** X11. Every amount that [clean_amount] accepts is written in the
    characters of a number: its cleaned text is the word None, or consists
    of digits, signs, the point, the underscore, the letters of an
    exponent or of inf, infinity and nan, and whitespace, or is such a text
    between one pair of parentheses.  Currency symbols, letters of other
    words and any other character make it raise. *)
Theorem clean_amount_alphabet (x : pyobj) (v : pyfloat) :
  clean_amount x = Ok v ->
  cleaned x = "None"
  \/ forall_chars float_char (cleaned x) = true
  \/ exists u, cleaned x = ("(" ++ u ++ ")")%string
               /\ forall_chars float_char u = true.
Proof.
  intros H. apply clean_amount_value in H as [[[E|E] _]|[F|(u & w & E & F & _)]].
  - right; left. now rewrite E.
  - now left.
  - right; left. eapply AlphabetFacts.float_alphabet; eauto.
  - right; right. exists u. split; [exact E|].
    eapply AlphabetFacts.float_alphabet; eauto.
Qed.

Lemma clean_amount_alphabet_witness :
  cleaned (PyStr " (1,234.50) ") = "None"
  \/ forall_chars float_char (cleaned (PyStr " (1,234.50) ")) = true
  \/ exists u, cleaned (PyStr " (1,234.50) ") = ("(" ++ u ++ ")")%string
               /\ forall_chars float_char u = true.
Proof.
  eapply (clean_amount_alphabet (PyStr " (1,234.50) ")).
  vm_compute. reflexivity.
Defined.

(** X12. Parentheses are understood only as one pair around the whole
    cleaned text.  A parenthesis in a text that does not both start with
    an opening and end with a closing one, or a further parenthesis
    between the wrapping pair, makes [clean_amount] raise [ValueError];
    so do an unbalanced "(5", a nested "((5))", a sign before the pair
    "-(5)", and the empty pair "()". *)
Theorem clean_amount_parentheses (x : pyobj) :
  (wrapped (cleaned x) = false ->
   occurs "(" (cleaned x) \/ occurs ")" (cleaned x) ->
   clean_amount x = Raise ValueError)
  /\ (forall u, cleaned x = ("(" ++ u ++ ")")%string ->
      occurs "(" u \/ occurs ")" u ->
      clean_amount x = Raise ValueError)
  /\ (cleaned x = "()" -> clean_amount x = Raise ValueError)
  /\ clean_amount (PyStr "(5") = Raise ValueError
  /\ clean_amount (PyStr "5)") = Raise ValueError
  /\ clean_amount (PyStr "((5))") = Raise ValueError
  /\ clean_amount (PyStr "-(5)") = Raise ValueError.
Proof.
  repeat match goal with |- _ /\ _ => split end.
  - intros W [Ho|Ho].
    + now apply (ParenFacts.unwrapped_paren x "("); auto.
    + now apply (ParenFacts.unwrapped_paren x ")"); auto.
  - intros u E [Ho|Ho].
    + now apply (ParenFacts.inner_paren x "(" u); auto.
    + now apply (ParenFacts.inner_paren x ")" u); auto.
  - intros E. now rewrite (clean_amount_wrapped x "" E).
  - reflexivity.
  - reflexivity.
  - reflexivity.
  - reflexivity.
Qed.

(** ** Signs *)

Module SignedFacts.
Import PyStr PyStrFacts PyFloat.

Lemma fneg_involutive (v : pyfloat) : fneg (fneg v) = v.
Proof.
  destruct v as [q|s|]; simpl; [|now rewrite negb_involutive|reflexivity].
  f_equal. apply Qcopp_involutive.
Qed.

Lemma decimal_neg (m : N) (e : Z) :
  decimal true m e = fneg (decimal false m e).
Proof.
  unfold decimal. cbv zeta. simpl fneg. f_equal.
  unfold Qcopp. apply Q2Qc_eq_iff.
  change (this (Q2Qc ?q)) with (Qred q).
  apply Qopp_comp. symmetry. apply Qred_correct.
Qed.

Lemma underscores_loop_prev (p q : ascii) (s : string) :
  is_underscore p = false -> isdigit p = false ->
  is_underscore q = false -> isdigit q = false ->
  underscores_loop p s = underscores_loop q s.
Proof.
  intros Up Dp Uq Dq. destruct s as [|c s]; simpl.
  - now rewrite Up, Uq.
  - now rewrite Up, Uq, Dp, Dq.
Qed.

Lemma rstrip_by_cons ws (a : ascii) (s : string) :
  ws a = false -> rstrip_by ws (String a s) = String a (rstrip_by ws s).
Proof.
  intros Ha. destruct (rstrip_by_split ws s) as (r & E & Hr & Hh).
  rewrite E at 1.
  change (String a (rstrip_by ws s ++ r))
    with (String a (rstrip_by ws s) ++ r)%string.
  rewrite (CleanFacts.rstrip_by_suffix ws _ r Hr).
  unfold rstrip_by at 1. rewrite SignFacts.lstrip_by_id.
  - apply rev_involutive.
  - rewrite rev_cons. destruct (rev (rstrip_by ws s)); simpl; auto.
Qed.

Lemma take_sign_cons (sg : ascii) (u : string) :
  sg = "-"%char \/ sg = "+"%char ->
  take_sign (String sg u) = (Ascii.eqb sg "-", u).
Proof. now intros [-> | ->]. Qed.

Lemma take_sign_none (u : string) :
  head_not sign_or_space u -> take_sign u = (false, u).
Proof.
  destruct u as [|c u]; [reflexivity|]. unfold head_not, sign_or_space.
  rewrite !orb_false_iff. intros [[H1 H2] _].
  apply Ascii.eqb_neq in H1, H2. unfold take_sign.
  destruct c as [[] [] [] [] [] [] [] []]; try reflexivity;
    now (destruct H1 || destruct H2).
Qed.

Lemma strtod_signed (sg : ascii) (u : string) :
  sg = "-"%char \/ sg = "+"%char -> head_not sign_or_space u ->
  strtod (String sg u)
  = option_map (fun r => (signed sg (fst r), snd r)) (strtod u).
Proof.
  intros Hs Hu. unfold strtod.
  rewrite (take_sign_cons sg u Hs), (take_sign_none u Hu).
  destruct (span_digits u) as [ip s2].
  destruct (match s2 with
            | String "." s' => span_digits s'
            | _ => (EmptyString, s2)
            end) as [fp s3].
  destruct (ip ++ fp)%string as [|c ds]; [reflexivity|].
  destruct (take_exponent s3) as [ex s4]. simpl option_map.
  unfold signed. destruct Hs as [-> | ->]; simpl Ascii.eqb; cbv iota.
  - now rewrite decimal_neg.
  - reflexivity.
Qed.

Lemma parse_inf_or_nan_signed (sg : ascii) (u : string) :
  sg = "-"%char \/ sg = "+"%char -> head_not sign_or_space u ->
  parse_inf_or_nan (String sg u)
  = option_map (fun r => (signed sg (fst r), snd r)) (parse_inf_or_nan u).
Proof.
  intros Hs Hu. unfold parse_inf_or_nan.
  rewrite (take_sign_cons sg u Hs), (take_sign_none u Hu).
  destruct (case_insensitive_match u "inf") as [s2|].
  - destruct (case_insensitive_match s2 "inity") as [s3|];
      destruct Hs as [-> | ->]; reflexivity.
  - destruct (case_insensitive_match u "nan") as [s2|]; [|reflexivity].
    destruct Hs as [-> | ->]; reflexivity.
Qed.

Lemma string_to_double_signed (sg : ascii) (u : string) :
  sg = "-"%char \/ sg = "+"%char -> head_not sign_or_space u ->
  string_to_double (String sg u)
  = option_map (fun r => (signed sg (fst r), snd r)) (string_to_double u).
Proof.
  intros Hs Hu. unfold string_to_double.
  rewrite (strtod_signed sg u Hs Hu).
  destruct (strtod u) as [[w r]|]; [reflexivity|].
  now apply parse_inf_or_nan_signed.
Qed.

Lemma sign_facts (sg : ascii) :
  sg = "-"%char \/ sg = "+"%char ->
  isspace_c sg = false /\ is_underscore sg = false /\ isdigit sg = false
  /\ Ascii.eqb sg zero = false.
Proof. intros [-> | ->]; repeat split. Qed.

Lemma without_underscores_signed (sg : ascii) (u t : string) :
  sg = "-"%char \/ sg = "+"%char ->
  without_underscores u = Some t ->
  without_underscores (String sg u) = Some (String sg t).
Proof.
  intros Hs. destruct (sign_facts sg Hs) as (_ & U & D & Z).
  unfold without_underscores. cbn [contains]. rewrite prefix_cons.
  assert (E : Ascii.eqb "_" sg = false).
  { rewrite Ascii.eqb_sym. exact U. }
  rewrite E. simpl orb.
  destruct (contains "_" u).
  - cbn [underscores_loop]. rewrite Z, U. simpl andb. cbv iota.
    rewrite (underscores_loop_prev sg zero u U D eq_refl eq_refl).
    now intros ->.
  - now intros [= ->].
Qed.

(** A sign before an accepted text that begins with neither a sign nor
    whitespace. *)
Lemma float_signed (sg : ascii) (u : string) (v : pyfloat) :
  sg = "-"%char \/ sg = "+"%char -> head_not sign_or_space u ->
  float u = Ok v -> float (String sg u) = Ok (signed sg v).
Proof.
  intros Hs Hu. destruct (sign_facts sg Hs) as (W & _).
  unfold float.
  destruct (without_underscores u) as [t|] eqn:T; [|discriminate].
  rewrite (without_underscores_signed sg u t Hs T).
  assert (Ht : head_not sign_or_space t).
  { apply SignFacts.without_underscores_head in T.
    destruct u, t; simpl in *; try tauto. now subst. }
  assert (Hw : head_not isspace_c t).
  { destruct t as [|c t]; simpl in *; [auto|].
    unfold sign_or_space in Ht. now apply orb_false_iff in Ht as [_ ?]. }
  unfold strip_by at 2. cbn [lstrip_by]. rewrite W.
  rewrite (rstrip_by_cons isspace_c sg t W).
  assert (E : rstrip_by isspace_c t = strip_by isspace_c t).
  { unfold strip_by. now rewrite (SignFacts.lstrip_by_id _ t Hw). }
  rewrite E.
  assert (Hh : head_not sign_or_space (strip_by isspace_c t)).
  { now apply SignFacts.strip_by_head. }
  destruct (strip_by isspace_c t) as [|c s] eqn:S; [discriminate|].
  rewrite (string_to_double_signed sg (String c s) Hs Hh).
  destruct (string_to_double (String c s)) as [[w r]|]; [|discriminate].
  simpl. destruct r; [|discriminate]. now intros [= ->].
Qed.

End SignedFacts.

(** X13. A sign before an amount and parentheses around it combine: for a
    text [t] that [float] reads as [v] and that begins with neither a sign
    nor whitespace, the cell reads as [v] when its cleaned text is [t] or
    [+t], as [-v] when it is [-t] or [(t)], and again as [v] when it is
    [(-t)]: the parentheses negate whatever is between them.  A sign
    before the parentheses, [-(t)], raises [ValueError]. *)
Theorem clean_amount_signs (x : pyobj) (t : string) (v : pyfloat) :
  PyFloat.float t = Ok v -> head_not sign_or_space t ->
  (cleaned x = t -> clean_amount x = Ok v)
  /\ (cleaned x = ("+" ++ t)%string -> clean_amount x = Ok v)
  /\ (cleaned x = ("-" ++ t)%string -> clean_amount x = Ok (fneg v))
  /\ (cleaned x = ("(" ++ t ++ ")")%string -> clean_amount x = Ok (fneg v))
  /\ (cleaned x = ("(-" ++ t ++ ")")%string -> clean_amount x = Ok v)
  /\ (cleaned x = ("(+" ++ t ++ ")")%string -> clean_amount x = Ok (fneg v))
  /\ (cleaned x = ("-(" ++ t ++ ")")%string ->
      clean_amount x = Raise ValueError).
Proof.
  intros F Hu.
  pose proof (SignedFacts.float_signed "-" t v (or_introl eq_refl) Hu F) as Fm.
  pose proof (SignedFacts.float_signed "+" t v (or_intror eq_refl) Hu F) as Fp.
  change (signed "-" v) with (fneg v) in Fm.
  change (signed "+" v) with v in Fp.
  assert (U : forall s w, PyFloat.float s = Ok w -> cleaned x = s ->
                          clean_amount x = Ok w).
  { intros s w Fs E.
    destruct (ParenFacts.float_accepts s w Fs) as (N1 & N2 & W).
    rewrite clean_amount_unfold, E, W.
    apply String.eqb_neq in N1, N2. now rewrite N1, N2. }
  repeat match goal with |- _ /\ _ => split end.
  - now apply U.
  - now apply U.
  - now apply U.
  - intros E. now rewrite (clean_amount_wrapped x t E), F.
  - intros E. rewrite (clean_amount_wrapped x ("-" ++ t) E).
    change ("-" ++ t)%string with (String "-" t). rewrite Fm. simpl.
    now rewrite SignedFacts.fneg_involutive.
  - intros E. rewrite (clean_amount_wrapped x ("+" ++ t) E).
    change ("+" ++ t)%string with (String "+" t). now rewrite Fp.
  - intros E. apply (ParenFacts.unwrapped_paren x "("); [now left|now rewrite E|].
    exists "-", (t ++ ")")%string. now rewrite E.
Qed.

Lemma clean_amount_signs_witness :
  clean_amount (PyStr "(-1,250.75)") = Ok (decimal_number "125075" 2).
Proof.
  apply (clean_amount_signs (PyStr "(-1,250.75)") "1250.75"
           (decimal_number "125075" 2)).
  - float_eq.
  - reflexivity.
  - reflexivity.
Defined.

(** ** [categorize] and the surrounding text *)

Module CategoryStable.
Import PyStr PyStrFacts.

Lemma lower_char_idem (c : ascii) : lower_char (lower_char c) = lower_char c.
Proof. destruct c as [[] [] [] [] [] [] [] []]; reflexivity. Qed.

Lemma lower_idem (s : string) : lower (lower s) = lower s.
Proof.
  induction s as [|c s IH]; simpl; [reflexivity|].
  now rewrite lower_char_idem, IH.
Qed.

Lemma contains_mono (k a s b : string) :
  contains k s = true -> contains k (a ++ s ++ b) = true.
Proof.
  rewrite !CategorizeFacts.contains_iff. intros (pre & post & ->).
  exists (a ++ pre)%string, (post ++ b)%string.
  now rewrite !append_assoc.
Qed.

Lemma contains_lower_mono (k a s b : string) :
  contains k (lower s) = true -> contains k (lower (a ++ s ++ b)) = true.
Proof.
  rewrite !CategorizeFacts.lower_append. apply contains_mono.
Qed.

Lemma rank_mono (a s b : string) :
  rank (categorize (PyStr (a ++ s ++ b))) <= rank (categorize (PyStr s)).
Proof.
  unfold categorize. cbn [str].
  pose proof (contains_lower_mono "loan" a s b) as M1.
  pose proof (contains_lower_mono "salary" a s b) as M2.
  pose proof (contains_lower_mono "neft" a s b) as M3.
  pose proof (contains_lower_mono "upi" a s b) as M4.
  pose proof (contains_lower_mono "transfer" a s b) as M5.
  pose proof (contains_lower_mono "tfr" a s b) as M6.
  generalize dependent (lower (a ++ s ++ b)). intros D.
  generalize dependent (lower s). intros d M1 M2 M3 M4 M5 M6.
  repeat match goal with
         | H : ?x = true -> ?y = true |- _ =>
             destruct y;
             [clear H; destruct x
             |destruct x; [discriminate (H eq_refl)|clear H]]
         end; cbv; lia.
Qed.

End CategoryStable.

(** X14. The category depends on the particulars only up to letter case,
    and text added before or after the particulars can move a transaction
    only to an earlier test of [categorize], never to a later one: a Loan
    stays a Loan whatever is added, while a UPI payment that also mentions
    a loan becomes a Loan.  The name of a category is classified as that
    category. *)
Theorem categorize_stable :
  (forall s, categorize (PyStr (PyStr.lower s)) = categorize (PyStr s))
  /\ (forall a s b,
        rank (categorize (PyStr (a ++ s ++ b)))
        <= rank (categorize (PyStr s)))
  /\ (forall a s b, categorize (PyStr s) = "Loan" ->
                    categorize (PyStr (a ++ s ++ b)) = "Loan")
  /\ (forall x, categorize (PyStr (categorize x)) = categorize x)
  /\ categorize (PyStr "UPI/shop") = "UPI"
  /\ categorize (PyStr "UPI/shop loan emi") = "Loan".
Proof.
  repeat match goal with |- _ /\ _ => split end.
  - intros s. unfold categorize. cbn [str].
    now rewrite CategoryStable.lower_idem.
  - apply CategoryStable.rank_mono.
  - intros a s b H. pose proof (CategoryStable.rank_mono a s b) as R.
    rewrite H in R.
    destruct (CategorizeFacts.first_match_labels
                (PyStr.lower (str (PyStr (a ++ s ++ b)))))
      as [E|[E|[E|[E|[E|[E|[]]]]]]];
      rewrite <- CategorizeFacts.categorize_first_match in E;
      rewrite <- E in *; [reflexivity|cbv in R; lia ..].
  - intros x.
    destruct (CategorizeFacts.first_match_labels (PyStr.lower (str x)))
      as [E|[E|[E|[E|[E|[E|[]]]]]]];
      rewrite <- CategorizeFacts.categorize_first_match in E;
      rewrite <- E; reflexivity.
  - reflexivity.
  - reflexivity.
Qed.
